(** * Stile: the corr2 interface (option registry, validator, serializer,
      result parser) and the correlation-function orchestrator.

    Shallow embedding of [stile/corr2_utils.py] and of
    [CorrelationFunctionSysTest.getCF] from [stile/sys_tests.py].

    Python dictionaries are association lists in iteration order, Python
    exceptions are values of [exn], and a call that may raise returns a
    [res]. *)

From Stdlib Require Import List String Ascii Bool ZArith Lia.
From Stdlib Require Import Floats.SpecFloat.
Import ListNotations.
Local Open Scope string_scope.

Set Implicit Arguments.
Set Warnings "-register-all".

(** ** Python values *)

(** The runtime values a configuration can hold.  [PInt] stands for both
    [int] and [long]; [PStr] is a byte string. *)
Inductive pyval : Type :=
| PNone
| PBool (b : bool)
| PInt (z : Z)
| PFloat (f : spec_float)
| PStr (s : string)
| PList (l : list pyval)
| PDict (d : list (string * pyval)).

Definition pydict : Type := list (string * pyval).

(** The builtin types named in the registry. *)
Inductive pytype : Type :=
| TStr | TList | TBool | TInt | TFloat.

(** [type(v) is t] *)
Definition has_type (v : pyval) (t : pytype) : bool :=
  match v, t with
  | PBool _, TBool | PInt _, TInt | PFloat _, TFloat
  | PStr _, TStr | PList _, TList => true
  | _, _ => false
  end.

(** ** Exceptions *)

(** The text of an exception, one constructor per [raise] statement of the
    source (with the values interpolated into the message) and per
    interpreter error the modelled code can run into. *)
Inductive msg : Type :=
| NotUnderstood (key : string)              (* corr2_utils.py, check_options *)
| ForbiddenFile (key : string)
| ForbiddenComputation (key : string)
| ShouldHaveBeenCaptured (key : string)
| TypeDoesNotMatch (key : string) (value : pyval)
| OnlyAcceptsValues (key : string) (vals : list string)
| UnknownKeyPassed (key : string)           (* write_corr2_param_file *)
| EmptyFile                                 (* read_corr2_output_file *)
| NoColumnMapping (file_type : string)
| MustContainFileKwarg                      (* sys_tests.py, getCF *)
| RandomFileWithoutFile2
| StringIndicesMustBeIntegers               (* 'allowed'['status'] *)
| NotEnoughFormatArguments                  (* '%s ... %s' % one_string *)
| CannotConcatenate (value : pyval)         (* str + non-str *)
| TakesExactlyOneArgument                   (* f(a, b) for def f(a, **kw) *)
| AmbiguousTruthValue                       (* bool(array of size > 1) *)
| MultipleValuesForArgument (name : string). (* f(a, name=b) for def f(name, **kw) *)

Inductive exn : Type :=
| ValueError (m : msg)
| RuntimeError (m : msg)
| TypeError (m : msg)
| KeyError (key : string)
| NameError (name : string)
| IndexError
| IOError
| AttributeError (name : string)
| CalledProcessError (status : Z)
| Propagated (tag : string).   (* raised inside a collaborator *)

Inductive res (A : Type) : Type :=
| Ok (a : A)
| Raise (e : exn).
Arguments Ok {A} a.
Arguments Raise {A} e.

Definition bind {A B} (r : res A) (k : A -> res B) : res B :=
  match r with
  | Ok a => k a
  | Raise e => Raise e
  end.

Notation "x <- r ;; k" := (bind r (fun x => k))
  (at level 61, r at next level, right associativity).
Notation "r ;;; k" := (bind r (fun _ => k))
  (at level 61, right associativity).

Definition raises {A} (r : res A) : bool :=
  match r with Ok _ => false | Raise _ => true end.

(** ** Dictionaries *)

Section Dict.
Variable V : Type.

Fixpoint dict_get (d : list (string * V)) (k : string) : option V :=
    match d with
    | [] => None
    | (k', v) :: d' => if String.eqb k k' then Some v else dict_get d' k
    end.

  (** [k in d] *)
Definition dict_in (k : string) (d : list (string * V)) : bool :=
    match dict_get d k with Some _ => true | None => false end.

  (** [d[k] = v]: an existing key keeps its position. *)
Fixpoint dict_set (d : list (string * V)) (k : string) (v : V)
    : list (string * V) :=
    match d with
    | [] => [(k, v)]
    | (k', v') :: d' =>
        if String.eqb k k' then (k', v) :: d' else (k', v') :: dict_set d' k v
    end.

  (** [d.update(e)] *)
Definition dict_update (d e : list (string * V)) : list (string * V) :=
    fold_left (fun acc kv => dict_set acc (fst kv) (snd kv)) e d.

  (** A dict display [{k1: v1, k2: v2, ...}]: a repeated key keeps the last
      value. *)
Definition dict_literal (items : list (string * V)) : list (string * V) :=
    dict_update [] items.

Definition keys (d : list (string * V)) : list string := map fst d.
End Dict.

(** ** Builtin conversions

    [check_options] calls [t(v)] for a type [t] of the registry and only
    looks at whether the call raises.  [castable t v] is [true] when [t(v)]
    returns. *)

Definition is_space (c : ascii) : bool :=
  let n := nat_of_ascii c in
  Nat.eqb n 32 || (Nat.leb 9 n && Nat.leb n 13).

Definition is_digit (c : ascii) : bool :=
  let n := nat_of_ascii c in Nat.leb 48 n && Nat.leb n 57.

Fixpoint lstrip (l : list ascii) : list ascii :=
  match l with
  | c :: r => if is_space c then lstrip r else l
  | [] => []
  end.

Definition strip (l : list ascii) : list ascii :=
  rev (lstrip (rev (lstrip l))).

Definition skip_sign (l : list ascii) : list ascii :=
  match l with
  | c :: r => if Ascii.eqb c "+" || Ascii.eqb c "-" then r else l
  | [] => []
  end.

Fixpoint span_digits (l : list ascii) : list ascii * list ascii :=
  match l with
  | c :: r =>
      if is_digit c then let (d, t) := span_digits r in (c :: d, t)
      else ([], l)
  | [] => ([], [])
  end.

Definition is_nil {A} (l : list A) : bool :=
  match l with [] => true | _ :: _ => false end.

Definition lower (c : ascii) : ascii :=
  let n := nat_of_ascii c in
  if Nat.leb 65 n && Nat.leb n 90 then ascii_of_nat (n + 32) else c.

(** The text accepted by [int(s)] in base 10: blanks, an optional sign, one
    or more digits, blanks. *)
Definition int_literal (s : string) : bool :=
  let l := skip_sign (strip (list_ascii_of_string s)) in
  negb (is_nil l) && forallb is_digit l.

(** The text accepted by [float(s)]: blanks, an optional sign, then [inf],
    [infinity] or [nan] in any case, or a decimal number with an optional
    exponent. *)
Definition float_literal (s : string) : bool :=
  let l := skip_sign (strip (list_ascii_of_string s)) in
  let w := string_of_list_ascii (map lower l) in
  if String.eqb w "inf" || String.eqb w "infinity" || String.eqb w "nan"
  then true
  else
    let (d1, r1) := span_digits l in
    let (d2, r2) :=
      match r1 with
      | c :: r => if Ascii.eqb c "." then span_digits r else ([], r1)
      | [] => ([], r1)
      end in
    if is_nil d1 && is_nil d2 then false
    else
      match r2 with
      | [] => true
      | c :: r =>
          if Ascii.eqb (lower c) "e"
          then let (d3, r3) := span_digits (skip_sign r) in
               negb (is_nil d3) && is_nil r3
          else false
      end.

(** [float(n)] raises OverflowError when [n] rounds to 2^1024 or more. *)
Definition float_int_bound : Z := (2 ^ 1024 - 2 ^ 970)%Z.

Definition castable (t : pytype) (v : pyval) : bool :=
  match t with
  | TStr => true
  | TBool => true
  | TList =>
      match v with
      | PStr _ | PList _ | PDict _ => true
      | _ => false
      end
  | TInt =>
      match v with
      | PBool _ | PInt _ => true
      | PFloat (S754_zero _) | PFloat (S754_finite _ _ _) => true
      | PStr s => int_literal s
      | _ => false
      end
  | TFloat =>
      match v with
      | PBool _ | PFloat _ => true
      | PInt z => (Z.abs z <? float_int_bound)%Z
      | PStr s => float_literal s
      | _ => false
      end
  end.

(** ** The option registry ([options]) *)

(** A value of the [options] dictionary.  All but one are dictionaries with
    the keys ['type'], ['val'] and (all but one) ['status']; the display
    also binds the key ['status'] itself to the string ['allowed']. *)
Inductive entry : Type :=
| Descriptor (type : list pytype) (val : option (list string))
             (status : option string)
| Bare (s : string).

(** The items of the dictionary display, in source order. *)
Definition options_display : list (string * entry) :=
  [
    ("file_name", Descriptor [TStr; TList] None (Some "captured"));
    ("do_auto_corr", Descriptor [TBool] None (Some "disallowed_computation"));
    ("do_cross_corr", Descriptor [TBool] None (Some "disallowed_computation"));
    ("file_name2", Descriptor [TStr; TList] None (Some "captured"));
    ("rand_file_name", Descriptor [TStr; TList] None (Some "captured"));
    ("rand_file_name2", Descriptor [TStr; TList] None (Some "captured"));
    ("file_list", Descriptor [TStr; TList] None (Some "disallowed_file"));
    ("file_list2", Descriptor [TStr; TList] None (Some "disallowed_file"));
    ("rand_file_list", Descriptor [TStr; TList] None (Some "disallowed_file"));
    ("rand_file_list2", Descriptor [TStr; TList] None (Some "disallowed_file"));
    ("file_type", Descriptor [TStr] (Some ["ASCII"; "FITS"]) (Some "captured"));
    ("delimiter", Descriptor [TStr] None (Some "captured"));
    ("comment_marker", Descriptor [TStr] None (Some "captured"));
    ("first_row", Descriptor [TInt] None (Some "captured"));
    ("last_row", Descriptor [TInt] None (Some "captured"));
    ("x_col", Descriptor [TInt; TStr] None (Some "captured"));
    ("y_col", Descriptor [TInt; TStr] None (Some "captured"));
    ("ra_col", Descriptor [TInt; TStr] None (Some "captured"));
    ("dec_col", Descriptor [TInt; TStr] None (Some "captured"));
    ("x_units", Descriptor [TStr] None (Some "allowed"));
    ("y_units", Descriptor [TStr] None (Some "allowed"));
    ("ra_units", Descriptor [TStr] None (Some "allowed"));
    ("dec_units", Descriptor [TStr] None (Some "allowed"));
    ("g1_col", Descriptor [TInt; TStr] None (Some "captured"));
    ("g2_col", Descriptor [TInt; TStr] None (Some "captured"));
    ("k_col", Descriptor [TInt; TStr] None (Some "captured"));
    ("w_col", Descriptor [TInt; TStr] None (Some "captured"));
    ("flip_g1", Descriptor [TBool] None (Some "captured"));
    ("flip_g2", Descriptor [TBool] None (Some "captured"));
    ("pairwise", Descriptor [TBool] None (Some "disallowed_computation"));
    ("project", Descriptor [TBool] None None);
    ("status", Bare "allowed");
    ("project_ra", Descriptor [TFloat] None (Some "allowed"));
    ("project_dec", Descriptor [TFloat] None (Some "allowed"));
    ("min_sep", Descriptor [TFloat] None (Some "captured"));
    ("max_sep", Descriptor [TFloat] None (Some "captured"));
    ("nbins", Descriptor [TFloat] None (Some "captured"));
    ("bin_size", Descriptor [TFloat] None (Some "captured"));
    ("sep_units", Descriptor [TStr] None (Some "allowed"));
    ("bin_slop", Descriptor [TFloat] None (Some "allowed"));
    ("smooth_scale", Descriptor [TFloat] None (Some "allowed"));
    ("n2_file_name", Descriptor [TStr] None (Some "disallowed_file"));
    ("n2_file_name", Descriptor [TStr] None (Some "disallowed_file"));
    ("n2_statistic", Descriptor [TStr] (Some ["compensated"; "simple"]) (Some "allowed"));
    ("ng_file_name", Descriptor [TStr] None (Some "disallowed_file"));
    ("ng_statistic", Descriptor [TStr] (Some ["compensated"; "simple"]) (Some "allowed"));
    ("g2_file_name", Descriptor [TStr] None (Some "disallowed_file"));
    ("nk_file_name", Descriptor [TStr] None (Some "disallowed_file"));
    ("nk_statistic", Descriptor [TStr] (Some ["compensated"; "simple"]) (Some "allowed"));
    ("k2_file_name", Descriptor [TStr] None (Some "disallowed_file"));
    ("kg_file_name", Descriptor [TStr] (Some ["compensated"; "simple"]) (Some "disallowed_file"));
    ("precision", Descriptor [TInt] None (Some "allowed"));
    ("m2_file_name", Descriptor [TStr] None (Some "disallowed_file"));
    ("m2_uform", Descriptor [TStr] (Some ["Schneider"; "Crittenden"]) (Some "allowed"));
    ("nm_file_name", Descriptor [TStr] None (Some "disallowed_file"));
    ("norm_file_name", Descriptor [TStr] None (Some "disallowed_file"));
    ("verbose", Descriptor [TInt] None (Some "captured"));
    ("num_threads", Descriptor [TInt] None (Some "captured"));
    ("split_method", Descriptor [TStr] (Some ["mean"; "median"; "middle"]) (Some "allowed"))
  ].

Definition options : list (string * entry) := dict_literal options_display.

(** [ok['status']], [ok['type']] and [ok['val']] for a value [ok] of the
    registry. *)
Definition get_status (ok : entry) : res string :=
  match ok with
  | Descriptor _ _ (Some s) => Ok s
  | Descriptor _ _ None => Raise (KeyError "status")
  | Bare _ => Raise (TypeError StringIndicesMustBeIntegers)
  end.

Definition get_type (ok : entry) : res (list pytype) :=
  match ok with
  | Descriptor t _ _ => Ok t
  | Bare _ => Raise (TypeError StringIndicesMustBeIntegers)
  end.

Definition get_val (ok : entry) : res (option (list string)) :=
  match ok with
  | Descriptor _ v _ => Ok v
  | Bare _ => Raise (TypeError StringIndicesMustBeIntegers)
  end.

(** ** The option validator ([check_options]) *)

(** [v in vals] for a sequence [vals] of strings. *)
Definition value_in (v : pyval) (vals : list string) : bool :=
  match v with
  | PStr s => existsb (String.eqb s) vals
  | _ => false
  end.

(** The truth value of [ok['val']]: [None] and the empty sequence are
    false. *)
Definition truthy_val (v : option (list string)) : bool :=
  match v with
  | Some (_ :: _) => true
  | _ => false
  end.

(** The body of the [for key in input_dict] loop. *)
Definition check_key (input_dict : pydict) (key : string) : res unit :=
  match dict_get options key with
  | None => Raise (ValueError (NotUnderstood key))
  | Some ok =>
      status <- get_status ok ;;
      (if String.eqb status "disallowed_file"
       then Raise (ValueError (ForbiddenFile key))
       else if String.eqb status "disallowed_computation"
       then Raise (ValueError (ForbiddenComputation key))
       else if String.eqb status "captured"
       then Raise (ValueError (ShouldHaveBeenCaptured key))
       else Ok tt) ;;;
      value <- match dict_get input_dict key with
               | Some v => Ok v
               | None => Raise (KeyError key)
               end ;;
      types <- get_type ok ;;
      (if existsb (has_type value) types then Ok tt
       else
         let type_ok := existsb (fun options_type => castable options_type value) types in
         if type_ok then Ok tt
         else Raise (ValueError (TypeDoesNotMatch key value))) ;;;
      val <- get_val ok ;;
      if truthy_val val
      then match val with
           | Some vals =>
               if value_in value vals then Ok tt
               else Raise (ValueError (OnlyAcceptsValues key vals))
           | None => Ok tt
           end
      else Ok tt
  end.

Fixpoint check_keys (input_dict : pydict) (ks : list string) : res unit :=
  match ks with
  | [] => Ok tt
  | key :: rest => check_key input_dict key ;;; check_keys input_dict rest
  end.

(** [check_options(input_dict, check_status)].  The body never reads
    [check_status]; the input dictionary is returned as it came. *)
Definition check_options (input_dict : pydict) (check_status : bool)
  : res pydict :=
  check_keys input_dict (keys input_dict) ;;; Ok input_dict.

(** The errors of the validator under the names of the specification. *)
Definition UnknownOption (key : string) : exn := ValueError (NotUnderstood key).
Definition TypeMismatch (key : string) (value : pyval) : exn :=
  ValueError (TypeDoesNotMatch key value).
Definition InvalidValue (key : string) (vals : list string) : exn :=
  ValueError (OnlyAcceptsValues key vals).

(** [ForbiddenOption]: one of the two messages that say the option "is
    forbidden by Stile". *)
Definition is_ForbiddenOption (e : exn) : bool :=
  match e with
  | ValueError (ForbiddenFile _) | ValueError (ForbiddenComputation _) => true
  | _ => false
  end.

(** An error raised by the block that inspects [ok['status']]. *)
Definition is_status_error (e : exn) : bool :=
  match e with
  | ValueError (ForbiddenFile _) | ValueError (ForbiddenComputation _)
  | ValueError (ShouldHaveBeenCaptured _) => true
  | _ => false
  end.

(** ** The column schema catalog ([column_maps]) *)

Definition column_maps_display : list (string * list (list string)) :=
  [
    ("n2",
      [
       ["r_nominal"; "r_mean"; "omega"; "sig_omega"; "dd"; "rr"];
       ["r_nominal"; "r_mean"; "omega"; "sig_omega"; "dd"; "rr"; "dr"; "rd"] ]);
    ("ng",
      [
       ["r_nominal"; "r_mean"; "gamt"; "gamx"; "sig"];
       ["r_nominal"; "r_mean"; "gamt"; "gamx"; "sig"; "weight"; "npairs"; "gamT_d"; "gamX_d"; "weight_d"; "npairs_d"; "gamT_r"; "gamX_r"; "weight_r"; "npairs_r"];
       ["r_nominal"; "r_mean"; "gamt"; "gamx"; "sig"; "r_sm"; "gamT_sm"; "sig_sm"];
       ["r_nominal"; "r_mean"; "gamt"; "gamx"; "sig"; "weight"; "npairs"; "gamT_d"; "gamX_d"; "weight_d"; "npairs_d"; "gamT_r"; "gamX_r"; "weight_r"; "npairs_r"; "r_sm"; "gamT_sm"; "sig_sm"] ]);
    ("g2",
      [
       ["r_nominal"; "r_mean"; "xi+"; "xi-"; "xi+_im"; "xi-_im"; "sig_xi"; "weight"; "npairs"];
       ["r_nominal"; "r_mean"; "xi+"; "xi-"; "xi+_im"; "xi-_im"; "sig_xi"; "weight"; "npairs"; "r_sm"; "xi+_sm"; "xi-_sm"; "sig_sm"] ]);
    ("nk",
      [
       ["r_nominal"; "r_mean"; "kappa_mean"; "sig"; "weight"; "npairs"];
       ["r_nominal"; "r_mean"; "kappa_mean"; "sig"; "kappa_d"; "weight_d"; "pairs_d"; "kappa_r"; "weight_r"; "npairs_r"];
       ["r_nominal"; "r_mean"; "kappa_mean"; "sig"; "weight"; "npairs"; "r_sm"; "kappa_sm"; "sig_sm"];
       ["r_nominal"; "r_mean"; "kappa_mean"; "sig"; "kappa_d"; "weight_d"; "pairs_d"; "kappa_r"; "weight_r"; "npairs_r"; "r_sm"; "kappa_sm"; "sig_sm"] ]);
    ("k2",
      [
       ["r_nominal"; "r_mean"; "xi"; "sig_xi"; "weight"; "npairs"];
       ["r_nominal"; "r_mean"; "xi"; "sig_xi"; "weight"; "npairs"; "r_sm"; "xi_sm"; "sig_sm"] ]);
    ("kg",
      [
       ["r_nominal"; "r_mean"; "kgamT_mean"; "kgamX_mean"; "sig"; "weight"; "npairs"];
       ["r_nominal"; "r_mean"; "kgamT_mean"; "kgamX_mean"; "sig"; "kgamT_d"; "kgamX_d"; "weight_d"; "npairs_d"; "kgamT_r"; "kgamX_r"; "weight_r"; "npairs_r"];
       ["r_nominal"; "r_mean"; "kgamT_mean"; "kgamX_mean"; "sig"; "weight"; "npairs"; "r_sm"; "kgamT_sm"; "sig_sm"];
       ["r_nominal"; "r_mean"; "kgamT_mean"; "kgamX_mean"; "sig"; "kgamT_d"; "kgamX_d"; "weight_d"; "npairs_d"; "kgamT_r"; "kgamX_r"; "weight_r"; "npairs_r"; "r_sm"; "kgamT_sm"; "sig_sm"] ]);
    ("m2",
      [
       ["r"; "map^2_mean"; "mx^2_mean"; "mmx_mean_a"; "mmx_mean_b"; "sig_map"; "gam^2_mean"; "sig_gam"] ]);
    ("nm",
      [
       ["r"; "nmap_mean"; "nmx_mean"; "sig_nmap"] ]);
    ("norm",
      [
       ["r"; "nmap_mean"; "nmx_mean"; "sig_nm"; "n^2_mean"; "sig_n^2"; "map^2_mean"; "sig_mm"; "nmnorm"; "sig_nmnorm"; "nnnorm"; "sig_nnnorm"] ])
  ].

Definition column_maps : list (string * list (list string)) :=
  dict_literal column_maps_display.

(** ** The configuration serializer ([write_corr2_param_file]) *)

(** What can be passed as a positional argument: a plain value or a file
    object.  Only one file object is ever written to in a call, and the
    text it holds is the state threaded through the serializer; a file
    object remembers whether it was opened for writing. *)
Inductive pyobj : Type :=
| Val (v : pyval)
| FileObj (writable : bool).

(** [open(name)]: opens for reading, and needs the file to be there. *)
Definition open (file_exists : string -> bool) (name : string) : res pyobj :=
  if file_exists name then Ok (FileObj false) else Raise IOError.

(** [f.write(key + ' = ' + value + '\n')]: the attribute [f.write] is looked
    up first, then the argument is computed, then the call is made. *)
Definition write_line (f : pyobj) (key : string) (value : pyval)
           (text : string) : string * res unit :=
  match f with
  | Val _ => (text, Raise (AttributeError "write"))
  | FileObj writable =>
      match value with
      | PStr v =>
          if writable
          then (text ++ key ++ " = " ++ v ++ String "010" "", Ok tt)
          else (text, Raise IOError)
      | _ => (text, Raise (TypeError (CannotConcatenate value)))
      end
  end.

(** [del d[k]] on a copy of [d]. *)
Definition dict_remove (k : string) (d : pydict) : pydict :=
  filter (fun kv => negb (String.eqb (fst kv) k)) d.

(** Binding the arguments of a call to
    [def write_corr2_param_file(param_file_name, **kwargs)]: the parameter
    takes the one positional argument, or the keyword argument of its name
    (a plain value) when there is no positional one; the other keyword
    arguments make up [kwargs].  Two positional arguments, none at all, or one along with a
    keyword argument named ['param_file_name'] are a TypeError. *)
Definition bind_param_file_name (positional : list pyobj) (keywords : pydict)
  : res (pyobj * pydict) :=
  match positional with
  | [] =>
      match dict_get keywords "param_file_name" with
      | Some v => Ok (Val v, dict_remove "param_file_name" keywords)
      | None => Raise (TypeError TakesExactlyOneArgument)
      end
  | [p] =>
      if dict_in "param_file_name" keywords
      then Raise (TypeError (MultipleValuesForArgument "param_file_name"))
      else Ok (p, keywords)
  | _ => Raise (TypeError TakesExactlyOneArgument)
  end.

Section Serializer.
Variable file_exists : string -> bool.

Section Body.
    (** The function itself, for the call in its body. *)
Variable self : list pyobj -> pydict -> string -> option (string * res unit).

    (** The [for key in kwargs] loop. *)
Fixpoint write_entries (f : pyobj) (kwargs : pydict) (ks : list string)
             (text : string) : option (string * res unit) :=
      match ks with
      | [] => Some (text, Ok tt)
      | key :: rest =>
          let continue (r : string * res unit) :=
            match r with
            | (text', Ok _) => write_entries f kwargs rest text'
            | (text', Raise e) => Some (text', Raise e)
            end in
          match dict_get kwargs key with
          | None => Some (text, Raise (KeyError key))
          | Some value =>
              if dict_in key options
              then continue (write_line f key value text)
              else
                match value with
                | PDict d =>
                    match self [f; Val (PDict d)] [] text with
                    | Some r => continue r
                    | None => None
                    end
                | _ => Some (text, Raise (ValueError (UnknownKeyPassed key)))
                end
          end
      end.

Definition write_body (param_file_name : pyobj) (kwargs : pydict)
               (text : string) : option (string * res unit) :=
      match
        match param_file_name with
        | Val (PStr name) => open file_exists name
        | _ => Ok param_file_name
        end
      with
      | Raise e => Some (text, Raise e)
      | Ok f =>
          (* the closing [f.close()] does not change the text *)
          write_entries f kwargs (keys kwargs) text
      end.
End Body.

  (** A call of [write_corr2_param_file] with the given positional and
      keyword arguments, started on a destination stream that holds [text]; the answer is the text it holds
      afterwards and how the call ended.  [fuel] bounds the depth of the
      calls; [None] means it ran out. *)
Fixpoint write_corr2_param_file (fuel : nat) (positional : list pyobj)
           (kwargs : pydict) (text : string) : option (string * res unit) :=
    match bind_param_file_name positional kwargs with
    | Raise e => Some (text, Raise e)
    | Ok (param_file_name, kwargs) =>
        match fuel with
        | O => None
        | S fuel' =>
            write_body (write_corr2_param_file fuel') param_file_name kwargs text
        end
    end.
End Serializer.

Definition UnserializableOption (key : string) : exn :=
  ValueError (UnknownKeyPassed key).

(** ** The result parser ([read_corr2_output_file]) *)

(** A numpy array of floats: its shape and its elements in row order. *)
Record ndarray : Type := { shape : list nat; data : list spec_float }.

Definition size (a : ndarray) : nat := fold_right Nat.mul 1 (shape a).

Definition nonzero (x : spec_float) : bool :=
  match x with S754_zero _ => false | _ => true end.

(** [bool(a)]: an empty array is false, an array of one element has the
    truth value of the element, any other array has none. *)
Definition array_truth (a : ndarray) : res bool :=
  match size a with
  | 0 => Ok false
  | 1 => Ok (match data a with x :: _ => nonzero x | [] => false end)
  | _ => Raise (ValueError AmbiguousTruthValue)
  end.

(** [a.shape[-1]] *)
Definition last_dimension (a : ndarray) : res nat :=
  match rev (shape a) with
  | n :: _ => Ok n
  | [] => Raise IndexError
  end.

Definition record_set : Type := list (list (string * spec_float)).

Fixpoint rows_of (fuel width : nat) (l : list spec_float) : list (list spec_float) :=
  match fuel, l with
  | S fuel', _ :: _ => firstn width l :: rows_of fuel' width (skipn width l)
  | _, _ => []
  end.

(** Modelled from the spec: [stile_utils.make_recarray], which is not part
    of the sources at hand.  Section 4.4: "Zip the matched name list against
    each column, in order, to build the Result Record Set." *)
Definition make_recarray (output : ndarray) (cols : list string) : record_set :=
  map (fun row => combine cols row)
      (rows_of (List.length (data output)) (List.length cols) (data output)).

Section Parser.
  (** [numpy.loadtxt] *)
Variable loadtxt : string -> res ndarray.

  (** The [for col_map in column_maps[file_type]] loop.  Its test reads the
      name [col_list], which is bound nowhere: not in the function, not in
      the module, not among the builtins. *)
Fixpoint match_columns (maps : list (list string)) (lenline : nat)
           (use_col_map : option (list string)) : res (option (list string)) :=
    match maps with
    | [] => Ok use_col_map
    | col_map :: rest =>
        col_list <- (Raise (NameError "col_list") : res (list string)) ;;
        match_columns rest lenline
          (if Nat.eqb (List.length col_list) lenline then Some col_map else use_col_map)
    end.

Definition read_corr2_output_file (file_name file_type : string)
    : res record_set :=
    match dict_get column_maps file_type with
    | None =>
        (* the message has two [%s] and is given one string *)
        Raise (TypeError NotEnoughFormatArguments)
    | Some maps =>
        output <- loadtxt file_name ;;
        truth <- array_truth output ;;
        (if negb truth then Raise (RuntimeError EmptyFile) else Ok tt) ;;;
        lenline <- last_dimension output ;;
        use_col_map <- match_columns maps lenline None ;;
        match use_col_map with
        | Some (_ :: _ as cols) => Ok (make_recarray output cols)
        | _ => Raise (RuntimeError (NoColumnMapping file_type))
        end
    end.
End Parser.

Definition SchemaMismatch (file_type : string) : exn :=
  RuntimeError (NoColumnMapping file_type).
Definition EmptyOutput : exn := RuntimeError EmptyFile.

(** ** The orchestrator ([CorrelationFunctionSysTest.getCF]) *)

(** What a call can change outside of itself: the open file descriptors,
    the temporary files on disk, and the processes started. *)
Record world : Type := {
  open_handles : list nat;
  temp_files : list string;
  spawned : list (list string);
  fresh : nat
}.

(** Computations that change the world and may raise. *)
Definition M (A : Type) : Type := world -> res A * world.

Definition ret {A} (a : A) : M A := fun w => (Ok a, w).
Definition throw {A} (e : exn) : M A := fun w => (Raise e, w).
Definition lift {A} (r : res A) : M A := fun w => (r, w).
Definition bindM {A B} (m : M A) (k : A -> M B) : M B :=
  fun w => match m w with
           | (Ok a, w') => k a w'
           | (Raise e, w') => (Raise e, w')
           end.

Notation "x <~ m ;; k" := (bindM m (fun x => k))
  (at level 61, m at next level, right associativity).
Notation "m ;;~ k" := (bindM m (fun _ => k))
  (at level 61, right associativity).

Fixpoint forM {A} (l : list A) (f : A -> M unit) : M unit :=
  match l with
  | [] => ret tt
  | a :: l' => f a ;;~ forM l' f
  end.

Fixpoint remove_handle (h : nat) (l : list nat) : list nat :=
  match l with
  | [] => []
  | x :: l' => if Nat.eqb x h then l' else x :: remove_handle h l'
  end.

(** [os.close(handle)] *)
Definition os_close (handle : nat) : M unit :=
  fun w => (Ok tt, {| open_handles := remove_handle handle (open_handles w);
                      temp_files := temp_files w;
                      spawned := spawned w;
                      fresh := fresh w |}).

(** The lowest descriptor that is not in use, which is the one the system
    gives to the next file opened. *)
Fixpoint first_free (budget n : nat) (in_use : list nat) : nat :=
  match budget with
  | O => n
  | S budget' =>
      if existsb (Nat.eqb n) in_use then first_free budget' (S n) in_use else n
  end.

Definition lowest_free (in_use : list nat) : nat :=
  first_free (List.length in_use) 0 in_use.

Section Orchestrator.
  (** The collaborators, which live in other modules of the package. *)
Variable AddCorr2Dict : pydict -> res pydict.
Variable MakeCorr2FileKwargs : pyval -> pyval -> pyval -> pyval -> res pydict.
Variable WriteCorr2ConfigurationFile : string -> pydict -> res unit.
Variable ReadCorr2ResultsFile : string -> res pyval.
  (** The exit status of the process started by [subprocess.check_call]. *)
Variable exit_status : list string -> Z.
  (** The name picked by [tempfile.mkstemp] for its n-th file, in the given
      directory or in the default one. *)
Variable temp_name : option string -> nat -> string.

  (** [tempfile.mkstemp(dir=...)]: creates the file and leaves it open.
      [fresh] counts the temporary files made so far. *)
Definition mkstemp (dir : option string) : M (nat * string) :=
    fun w =>
      let handle := lowest_free (open_handles w) in
      let name := temp_name dir (fresh w) in
      (Ok (handle, name),
       {| open_handles := (open_handles w ++ [handle])%list;
          temp_files := (temp_files w ++ [name])%list;
          spawned := spawned w;
          fresh := S (fresh w) |}).

  (** [subprocess.check_call(args)] *)
Definition check_call (args : list string) : M unit :=
    fun w =>
      let w' := {| open_handles := open_handles w;
                   temp_files := temp_files w;
                   spawned := (spawned w ++ [args])%list;
                   fresh := fresh w |} in
      if Z.eqb (exit_status args) 0 then (Ok tt, w')
      else (Raise (CalledProcessError (exit_status args)), w').

  (** The first statements of [getCF]: the configuration that results from
      [stile_args], the keyword arguments and the data sets. *)
Definition merge_kwargs (stile_args : pydict)
             (data data2 random random2 : pyval) (kwargs : pydict)
    : res pydict :=
    stile_args <- (if negb (dict_in "corr2_kwargs" stile_args)
                   then AddCorr2Dict stile_args else Ok stile_args) ;;
    corr2_kwargs <- match dict_get stile_args "corr2_kwargs" with
                    | None => Raise (KeyError "corr2_kwargs")
                    | Some (PDict d) => Ok d
                    | Some _ => Raise (AttributeError "update")
                    end ;;
    let corr2_kwargs := dict_update corr2_kwargs kwargs in
    corr2_file_kwargs <- MakeCorr2FileKwargs data data2 random random2 ;;
    Ok (dict_update corr2_kwargs corr2_file_kwargs).

  (** "make sure the set of non-None data sets makes sense" *)
Definition check_files (corr2_kwargs : pydict) : res unit :=
    (if negb (dict_in "file_list" corr2_kwargs || dict_in "file_name" corr2_kwargs)
     then Raise (ValueError MustContainFileKwarg) else Ok tt) ;;;
    if (dict_in "rand_list2" corr2_kwargs || dict_in "rand_name2" corr2_kwargs)
       && negb (dict_in "file_name2" corr2_kwargs || dict_in "file_list2" corr2_kwargs)
    then Raise (ValueError RandomFileWithoutFile2) else Ok tt.

Definition getCF (stile_args : pydict) (correlation_function_type : string)
             (data data2 random random2 : pyval) (save_config : bool)
             (kwargs : pydict) : M pyval :=
    corr2_kwargs <~ lift (merge_kwargs stile_args data data2 random random2 kwargs) ;;
    lift (check_files corr2_kwargs) ;;~
    hc <~ mkstemp (if save_config then Some "." else None) ;;
    let (handle1, config_file) := hc in
    ho <~ mkstemp None ;;
    let (handle2, output_file) := ho in
    let handles := [handle1; handle2] in
    let corr2_kwargs :=
      dict_set corr2_kwargs (correlation_function_type ++ "_file_name")
               (PStr output_file) in
    lift (WriteCorr2ConfigurationFile config_file corr2_kwargs) ;;~
    check_call ["corr2"; config_file] ;;~
    return_value <~ lift (ReadCorr2ResultsFile output_file) ;;
    forM handles os_close ;;~
    ret return_value.
End Orchestrator.

Definition is_IncompleteSpecification (e : exn) : bool :=
  match e with
  | ValueError MustContainFileKwarg | ValueError RandomFileWithoutFile2 => true
  | _ => false
  end.

(** ** Vocabulary of the properties *)

(** The validated configuration holds a float under [key]. *)
Definition stored_as_float (r : res pydict) (key : string) : Prop :=
  exists cfg f, r = Ok cfg /\ dict_get cfg key = Some (PFloat f).

(** The call ended with an error that satisfies [p]. *)
Definition fails_with {A} (p : exn -> bool) (r : res A) : bool :=
  match r with
  | Ok _ => false
  | Raise e => p e
  end.

(** The text of a parameter file with the given pairs, one line each. *)
Definition newline : string := String "010" "".

Definition param_line (key value : string) : string :=
  key ++ " = " ++ value ++ newline.

Fixpoint param_text (pairs : list (string * string)) : string :=
  match pairs with
  | [] => ""
  | (key, value) :: rest => param_line key value ++ param_text rest
  end.

(** The entries of a configuration whose values are strings. *)
Fixpoint string_pairs (kwargs : pydict) : list (string * string) :=
  match kwargs with
  | [] => []
  | (key, PStr v) :: rest => (key, v) :: string_pairs rest
  | _ :: rest => string_pairs rest
  end.

(** Modelled from the spec: the reading of a parameter file, which the
    engine does and no module of the package.  Section 6: "flat text, one
    key = value pair per line, = surrounded by single spaces". *)
Fixpoint lines_of (text : string) : list string :=
  match text with
  | "" => []
  | String c rest =>
      if Ascii.eqb c "010" then "" :: lines_of rest
      else match lines_of rest with
           | [] => [String c ""]
           | line :: others => String c line :: others
           end
  end.

(** What follows the separator, for a text that starts with it. *)
Definition after_separator (line : string) : option string :=
  match line with
  | String " " (String "=" (String " " value)) => Some value
  | _ => None
  end.

(** A line is cut at the first separator. *)
Fixpoint split_key_value (line : string) : option (string * string) :=
  match after_separator line with
  | Some value => Some ("", value)
  | None =>
      match line with
      | "" => None
      | String c rest =>
          match split_key_value rest with
          | Some (key, value) => Some (String c key, value)
          | None => None
          end
      end
  end.

Definition parse_param_text (text : string) : list (string * string) :=
  flat_map (fun line => match split_key_value line with
                        | Some kv => [kv]
                        | None => []
                        end)
           (lines_of text).

Definition has_char (c : ascii) (s : string) : bool :=
  existsb (Ascii.eqb c) (list_ascii_of_string s).

(** [stile.corr2_utils.AddCorr2Dict] as the module at hand answers it: the
    module binds [add_corr2_dict] and no name [AddCorr2Dict]. *)
Definition AddCorr2Dict_unbound (stile_args : pydict) : res pydict :=
  Raise (AttributeError "AddCorr2Dict").

(** [MakeCorr2FileKwargs] for data sets that are all empty: "if all data
    sets are empty, the return value is an empty dict". *)
Definition no_file_kwargs (data data2 random random2 : pyval) : res pydict :=
  Ok [].

(** The world in which nothing is open and nothing was created. *)
Definition empty_world : world :=
  {| open_handles := []; temp_files := []; spawned := []; fresh := 0 |}.

(** ** Harvesting the corr2 options ([add_corr2_dict]) *)

(** The [for key in options] loop: the entries of [input_dict] whose key is
    in the registry. *)
Definition harvest (input_dict : pydict) : pydict :=
  fold_left
    (fun corr2_dict key =>
       match dict_get input_dict key with
       | Some value => dict_set corr2_dict key value
       | None => corr2_dict
       end)
    (keys options) [].

(** [add_corr2_dict(input_dict)]: the dictionary it returns is the one it
    was given, with the key ['corr2_options'] added or its value updated. *)
Definition add_corr2_dict (input_dict : pydict) : res pydict :=
  let corr2_dict := harvest input_dict in
  match dict_get input_dict "corr2_options" with
  | Some (PDict existing) =>
      Ok (dict_set input_dict "corr2_options"
                   (PDict (dict_update existing corr2_dict)))
  | Some _ => Raise (AttributeError "update")
  | None => Ok (dict_set input_dict "corr2_options" (PDict corr2_dict))
  end.

(** ** The start of [CorrelationFunctionSysTest.plot] *)

(** How a call of [plot] goes on after its first statements: it returns
    [None] when matplotlib is missing, raises ValueError('No radius
    parameter found in data') when no radius field is found, and otherwise
    carries on with the field it picked. *)
Inductive plot_start : Type :=
| ReturnsNone
| NoRadiusParameter
| Radius (r : string).

(** [t_r in fields] for the names of the fields of the data. *)
Definition field_in (name : string) (fields : list string) : bool :=
  existsb (String.eqb name) fields.

(** The [for t_r in ['<R>','R_nominal','R']] loop with its [else]. *)
Fixpoint pick_radius (candidates fields : list string) : plot_start :=
  match candidates with
  | [] => NoRadiusParameter
  | t_r :: rest =>
      if field_in t_r fields then Radius t_r else pick_radius rest fields
  end.

Definition plot_radius (has_matplotlib : bool) (fields : list string)
  : plot_start :=
  if negb has_matplotlib then ReturnsNone
  else pick_radius ["<R>"; "R_nominal"; "R"] fields.

(** No string occurs twice in the list. *)
Fixpoint distinct (l : list string) : bool :=
  match l with
  | [] => true
  | x :: rest => negb (existsb (String.eqb x) rest) && distinct rest
  end.

(** ** The checks of [StatSysTest.__call__]

    The call up to the point where the statistics are computed: the choice
    of the percentile levels and of the field, the checks of the
    arguments, the removal of the bad values and the test for NaN and
    infinite values.  The statistics themselves are not modelled. *)

(** An argument that should be iterable. *)
Inductive pyiter : Type :=
| NotIterable
| Iterable (values : list spec_float).

(** The [array] argument once it went through [numpy.array]: a simple
    array, taken with all its dimensions collapsed, or a structured array
    with its fields. *)
Inductive stat_array : Type :=
| NoIterable
| SimpleArray (values : list spec_float)
| CatalogArray (fields : list (string * list spec_float)).

(** How the first part of a call ends. *)
Inductive stat_outcome : Type :=
| PercentilesNotIterable    (* RuntimeError *)
| ArrayNotIterable          (* RuntimeError *)
| CatalogWithoutField       (* RuntimeError *)
| FieldNotInCatalog (field : string)   (* RuntimeError *)
| NoGoodEntries             (* RuntimeError *)
| ZeroSizeArray             (* ValueError of numpy.min on no element *)
| NanOrInfDetected          (* RuntimeError *)
| Computes (use_array use_percentiles : list spec_float) (warned : bool).

Definition is_nan (x : spec_float) : bool :=
  match x with S754_nan => true | _ => false end.

Definition is_inf (x : spec_float) : bool :=
  match x with S754_infinity _ => true | _ => false end.

(** [numpy.min]: the reduction keeps [a] when [a <= b] or [a] is NaN, and
    takes [b] otherwise. *)
Definition np_min (first : spec_float) (rest : list spec_float) : spec_float :=
  fold_left (fun a b => if SFleb a b || is_nan a then a else b) rest first.

(** The part of the call that begins at "Reject NaN / Inf values". *)
Definition stat_checks (use_array use_percentiles : list spec_float)
           (warned ignore_bad : bool) : stat_outcome :=
  let use_array' :=
    if ignore_bad
    then filter (fun x => negb (is_nan x) && negb (is_inf x)) use_array
    else use_array in
  if ignore_bad && Nat.eqb (List.length use_array') 0 then NoGoodEntries
  else
    match use_array' with
    | [] => ZeroSizeArray
    | first :: rest =>
        let result_min := np_min first rest in
        if is_nan result_min || is_inf result_min then NanOrInfDetected
        else Computes use_array' use_percentiles warned
    end.

(** [StatSysTest.__call__(array, percentiles, field, verbose, ignore_bad)]
    for an object set up with [self_percentiles] and [self_field]. *)
Definition stat_call (self_percentiles : pyiter) (self_field : option string)
           (array : stat_array) (percentiles : option pyiter)
           (field : option string) (ignore_bad : bool) : stat_outcome :=
  let use_percentiles :=
    match percentiles with Some p => p | None => self_percentiles end in
  let use_field :=
    match field with Some f => Some f | None => self_field end in
  match use_percentiles with
  | NotIterable => PercentilesNotIterable
  | Iterable levels =>
      match array with
      | NoIterable => ArrayNotIterable
      | CatalogArray fields =>
          match use_field with
          | None => CatalogWithoutField
          | Some f =>
              match dict_get fields f with
              | None => FieldNotInCatalog f
              | Some column => stat_checks column levels false ignore_bad
              end
          end
      | SimpleArray values =>
          stat_checks values levels
                      (match use_field with Some _ => true | None => false end)
                      ignore_bad
      end
  end.

(** The values that the test for bad values lets through when nothing is
    removed first. *)
Definition is_neg_inf (x : spec_float) : bool :=
  match x with S754_infinity true => true | _ => false end.

Definition is_pos_inf (x : spec_float) : bool :=
  match x with S754_infinity false => true | _ => false end.

(** ** Arrays for the tests ([hsc/base_tasks.py])

    [CCDSingleEpochStileTask.makeArray] and [removeFlaggedObjects].  A
    column is a one-dimensional numpy array: its dtype and its values. *)

Section MakeArray.
Variable V : Type.
(** The value [numpy.zeros] fills with. *)
Variable zero : V.

Record np_column : Type := { col_dtype : string; col_values : list V }.

(** A structured array: the dtype it was made with, its length, and the
    values under each field. *)
Record structured : Type := {
  str_dtype : list (string * string);
  str_len : nat;
  str_data : list (string * list V)
}.

(** [len(set(len_list))] *)
Definition count_distinct (len_list : list nat) : nat :=
  List.length (nodup Nat.eq_dec len_list).

(** [makeArray(catalog_dict)]; [None] stands for the RuntimeError
    'Different catalog lengths for different columns!'.  A dictionary
    holds each key once, so [catalog_dict[key]] is the column listed with
    [key]. *)
Definition makeArray (catalog_dict : list (string * np_column))
  : option structured :=
  let dtypes := map (fun kc => (fst kc, col_dtype (snd kc))) catalog_dict in
  let len_list := map (fun kc => List.length (col_values (snd kc))) catalog_dict in
  if negb (Nat.eqb (count_distinct len_list) 1) then None
  else
    let n := hd 0 len_list in
    let data := map (fun kd => (fst kd, repeat zero n)) dtypes in
    Some {| str_dtype := dtypes;
            str_len := n;
            str_data :=
              fold_left (fun data kc => dict_set data (fst kc) (col_values (snd kc)))
                        catalog_dict data |}.
End MakeArray.

(** A source of the catalog, seen through its flags: [src flag] is [true]
    when [src.get(flag) == False] does not hold. *)
Definition source : Type := string -> bool.

(** [numpy.logical_and] on two masks of one length. *)
Definition logical_and (mask new_mask : list bool) : list bool :=
  map (fun p => fst p && snd p) (combine mask new_mask).

(** [catalog[mask]] *)
Definition select (catalog : list source) (mask : list bool) : list source :=
  map snd (filter fst (combine mask catalog)).

(** [removeFlaggedObjects(catalog)] for the flags of the configuration;
    [None] stands for the IndexError of [masks[0]]. *)
Definition removeFlaggedObjects (flags : list string) (catalog : list source)
  : option (list source) :=
  let masks := map (fun flag => map (fun src => negb (src flag)) catalog) flags in
  match masks with
  | [] => None
  | mask :: rest => Some (select catalog (fold_left logical_and rest mask))
  end.

(** The default of [CCDSingleEpochStileConfig.corr2_kwargs], which the
    task hands to the correlation tests as their [stile_args]. *)
Definition default_corr2_kwargs : pydict :=
  [("ra_units", PStr "degrees"); ("dec_units", PStr "degrees");
   ("min_sep", PStr "0.005"); ("max_sep", PStr "0.2");
   ("sep_units", PStr "degrees"); ("nbins", PStr "20")].

(** * Properties *)

Unset Implicit Arguments.

(** ** Sanity checks of the embedding *)

Example check_options_allowed :
  check_options [("sep_units", PStr "degrees"); ("precision", PInt 4)] true
  = Ok [("sep_units", PStr "degrees"); ("precision", PInt 4)].
Proof. reflexivity. Qed.

Example check_options_split :
  check_options [("split_method", PStr "mode")] true
  = Raise (InvalidValue "split_method" ["mean"; "median"; "middle"]).
Proof. reflexivity. Qed.

Example check_options_project :
  check_options [("project", PBool true)] true = Raise (KeyError "status").
Proof. reflexivity. Qed.

Example check_options_status :
  check_options [("status", PStr "x")] false
  = Raise (TypeError StringIndicesMustBeIntegers).
Proof. reflexivity. Qed.

Example float_literals :
  map float_literal ["20"; "abc"; " -1.5e3 "; "."; "1."; ".5"; "1e"; "Inf"; "0x10"; ""]
  = [true; false; true; false; true; true; false; true; false; false].
Proof. reflexivity. Qed.

Example int_literals :
  map int_literal ["20"; " -7 "; "abc"; "2.5"; "+"; ""]
  = [true; true; false; false; false; false].
Proof. reflexivity. Qed.

(** ** Dictionaries *)

Lemma dict_get_In (V : Type) (d : list (string * V)) k v :
  dict_get d k = Some v -> In (k, v) d.
Proof.
  induction d as [|[k' v'] d IH]; simpl; [discriminate|].
  destruct (String.eqb_spec k k') as [->|_].
  - intros [= ->]. now left.
  - intros H. right. auto.
Qed.

Lemma dict_get_app_l (V : Type) (d e : list (string * V)) k :
  In k (keys d) -> dict_get (d ++ e)%list k = dict_get d k.
Proof.
  induction d as [|[k' v'] d IH]; simpl; [tauto|].
  destruct (String.eqb_spec k k') as [->|Hne]; [reflexivity|].
  intros [Heq|Hin]; [congruence|auto].
Qed.

Lemma dict_in_false (V : Type) (d : list (string * V)) k :
  dict_in k d = false <-> dict_get d k = None.
Proof.
  unfold dict_in. destruct (dict_get d k); split; congruence.
Qed.

(** ** The validator *)

(** The check of one key looks at the input only through the value of that
    key. *)
Lemma check_key_ext d d' key :
  dict_get d key = dict_get d' key -> check_key d key = check_key d' key.
Proof. unfold check_key. now intros ->. Qed.

Lemma check_keys_app_l pre rest ks :
  incl ks (keys pre) -> check_keys (pre ++ rest)%list ks = check_keys pre ks.
Proof.
  induction ks as [|k ks IH]; intros Hincl; [reflexivity|].
  simpl. rewrite (check_key_ext (pre ++ rest)%list pre k).
  - rewrite IH; [reflexivity|]. intros x Hx. apply Hincl. now right.
  - apply dict_get_app_l. apply Hincl. now left.
Qed.

Lemma check_keys_app d ks1 ks2 :
  check_keys d (ks1 ++ ks2)%list = (check_keys d ks1 ;;; check_keys d ks2).
Proof.
  induction ks1 as [|k ks1 IH]; [reflexivity|].
  simpl. destruct (check_key d k); simpl; [apply IH|reflexivity].
Qed.

Lemma check_key_unknown d key :
  dict_in key options = false ->
  check_key d key = Raise (UnknownOption key).
Proof.
  intros H. apply dict_in_false in H. unfold check_key. now rewrite H.
Qed.

Lemma check_options_ok_inv d flag d' :
  check_options d flag = Ok d' -> check_keys d (keys d) = Ok tt /\ d' = d.
Proof.
  unfold check_options. destruct (check_keys d (keys d)) as [[]|e]; simpl.
  - intros [= <-]. auto.
  - discriminate.
Qed.

(** Case analysis over the entries of the registry: turns a hypothesis
    [dict_get options key = Some e] into one goal per matching entry. *)
Ltac registry_cases H :=
  apply dict_get_In in H; vm_compute in H;
  repeat (destruct H as [H|H];
          [try discriminate H; injection H as ?; subst|]);
  try contradiction.

(** C1 (counterexample).  ['bin_slop'] is declared with the types [(float,)],
    and validating [{'bin_slop': '20'}] returns the dictionary with the
    string ['20'] still in it: no float is stored. *)
Lemma C1_counterexample :
  dict_get options "bin_slop" = Some (Descriptor [TFloat] None (Some "allowed")) /\
  check_options [("bin_slop", PStr "20")] true = Ok [("bin_slop", PStr "20")] /\
  ~ stored_as_float (check_options [("bin_slop", PStr "20")] true) "bin_slop".
Proof.
  repeat split.
  intros (cfg & f & Hok & Hget).
  vm_compute in Hok. injection Hok as <-. vm_compute in Hget. discriminate.
Qed.

(** C1 (amended).  For every option that the registry declares with the
    types [(float,)] and the status ['allowed'], validating a configuration
    that maps it to the string ['20'] succeeds, with either value of
    [check_status], and returns the configuration as it was given, the value
    still the string ['20']; mapping it to ['abc'] fails with the
    type-mismatch error. *)
Theorem check_options_float_string (key : string) (val : option (list string))
        (check_status : bool) :
  dict_get options key = Some (Descriptor [TFloat] val (Some "allowed")) ->
  check_options [(key, PStr "20")] check_status = Ok [(key, PStr "20")] /\
  check_options [(key, PStr "abc")] check_status
  = Raise (TypeMismatch key (PStr "abc")).
Proof.
  intros H. registry_cases H; split; reflexivity.
Qed.

Lemma check_options_float_string_witness :
  dict_get options "smooth_scale" = Some (Descriptor [TFloat] None (Some "allowed")) /\
  check_options [("smooth_scale", PStr "20")] false = Ok [("smooth_scale", PStr "20")] /\
  check_options [("smooth_scale", PStr "abc")] false
  = Raise (TypeMismatch "smooth_scale" (PStr "abc")).
Proof.
  split; [reflexivity|].
  apply (check_options_float_string "smooth_scale" None false). reflexivity.
Defined.

(** The float options with the status ['captured'] are turned down whatever
    the value. *)
Example check_options_min_sep :
  check_options [("min_sep", PStr "20")] true
  = Raise (ValueError (ShouldHaveBeenCaptured "min_sep")).
Proof. reflexivity. Qed.

(** C2.  A configuration key that is not in the registry makes the
    validator fail with the unknown-option error, whatever value it is
    mapped to and whatever [check_status] is: the call raises it at the
    first such key, once the keys before it have passed. *)
Theorem check_options_unknown_key (pre post : pydict) (key : string)
        (value : pyval) (check_status : bool) :
  dict_in key options = false ->
  check_options pre check_status = Ok pre ->
  check_options (pre ++ (key, value) :: post)%list check_status
  = Raise (UnknownOption key).
Proof.
  intros Hunknown Hpre.
  apply check_options_ok_inv in Hpre as [Hpre _].
  unfold check_options, keys. rewrite map_app, check_keys_app.
  fold (keys pre). rewrite check_keys_app_l by apply incl_refl.
  rewrite Hpre. simpl.
  now rewrite (check_key_unknown _ _ Hunknown).
Qed.

Lemma check_options_unknown_key_witness :
  check_options [("sep_units", PStr "arcmin"); ("bin_count", PInt 20);
                 ("precision", PInt 4)] false
  = Raise (UnknownOption "bin_count").
Proof.
  apply (check_options_unknown_key [("sep_units", PStr "arcmin")]
           [("precision", PInt 4)] "bin_count" (PInt 20) false);
    reflexivity.
Defined.

(** A configuration with an unknown key never passes. *)
Lemma check_options_unknown_key_rejected (d : pydict) (key : string)
      (check_status : bool) :
  dict_in key options = false -> In key (keys d) ->
  raises (check_options d check_status) = true.
Proof.
  intros Hunknown Hin. unfold check_options.
  assert (H : raises (check_keys d (keys d)) = true).
  { generalize dependent (keys d). intros ks.
    induction ks as [|k ks IH]; simpl; [tauto|].
    intros [->|Hin].
    - now rewrite (check_key_unknown _ _ Hunknown).
    - destruct (check_key d k); simpl; auto. }
  destruct (check_keys d (keys d)); [discriminate|reflexivity].
Qed.

(** The status tags of the registry: every descriptor but the one of
    ['project'] has one of the four documented tags. *)
Lemma options_status (key : string) (types : list pytype)
      (val : option (list string)) (status : string) :
  dict_get options key = Some (Descriptor types val (Some status)) ->
  In status ["captured"; "allowed"; "disallowed_file"; "disallowed_computation"].
Proof.
  intros H. registry_cases H; simpl; tauto.
Qed.

Lemma check_key_status_passed (d : pydict) (key : string) (value : pyval)
      (types : list pytype) (val : option (list string)) (status : string) :
  dict_get options key = Some (Descriptor types val (Some status)) ->
  dict_get d key = Some value ->
  String.eqb status "disallowed_file" = false ->
  String.eqb status "disallowed_computation" = false ->
  String.eqb status "captured" = false ->
  fails_with is_status_error (check_key d key) = false.
Proof.
  intros Hopt Hval H1 H2 H3. unfold check_key.
  rewrite Hopt, Hval. simpl. rewrite H1, H2, H3. simpl.
  destruct (existsb (has_type value) types); simpl.
  - destruct (truthy_val val); [|reflexivity].
    destruct val as [vals|]; [|reflexivity].
    now destruct (value_in value vals).
  - destruct (existsb _ types); simpl; [|reflexivity].
    destruct (truthy_val val); [|reflexivity].
    destruct val as [vals|]; [|reflexivity].
    now destruct (value_in value vals).
Qed.

(** C3 (counterexample).  ['file_name'] has the tag ['captured'], which is
    neither of the two forbidden ones, and the validator turns it down in
    the block that inspects the tag. *)
Lemma C3_counterexample :
  dict_get options "file_name"
  = Some (Descriptor [TStr; TList] None (Some "captured")) /\
  check_options [("file_name", PStr "lens.dat")] true
  = Raise (ValueError (ShouldHaveBeenCaptured "file_name")) /\
  fails_with is_status_error (check_options [("file_name", PStr "lens.dat")] true)
  = true.
Proof. repeat split. Qed.

(** C3 (amended).  For a registry key with a status tag, validated alone
    with [check_status=True]: the validator fails with the forbidden-option
    error exactly when the tag is ['disallowed_computation'] or
    ['disallowed_file']; when the tag is ['captured'] it fails with the
    error that says the option should have been captured; for any other
    tag it does not fail in the block that inspects the tag. *)
Theorem check_options_status_tag (key : string) (value : pyval)
        (types : list pytype) (val : option (list string)) (status : string) :
  dict_get options key = Some (Descriptor types val (Some status)) ->
  let r := check_options [(key, value)] true in
  (fails_with is_ForbiddenOption r = true <->
   status = "disallowed_computation" \/ status = "disallowed_file") /\
  (status = "captured" ->
   r = Raise (ValueError (ShouldHaveBeenCaptured key))) /\
  (status <> "disallowed_computation" -> status <> "disallowed_file" ->
   status <> "captured" -> fails_with is_status_error r = false).
Proof.
  intros Hopt r.
  assert (Hr : r = (check_key [(key, value)] key ;;; Ok [(key, value)])).
  { subst r. unfold check_options. simpl.
    now destruct (check_key [(key, value)] key) as [[]|]. }
  assert (Hget : dict_get [(key, value)] key = Some value).
  { simpl. now rewrite String.eqb_refl. }
  destruct (String.eqb_spec status "disallowed_file") as [->|Hf].
  { rewrite Hr. unfold check_key. rewrite Hopt. simpl.
    repeat split; auto; try congruence; discriminate. }
  destruct (String.eqb_spec status "disallowed_computation") as [->|Hc].
  { rewrite Hr. unfold check_key. rewrite Hopt. simpl.
    repeat split; auto; try congruence; discriminate. }
  destruct (String.eqb_spec status "captured") as [->|Hp].
  { rewrite Hr. unfold check_key. rewrite Hopt. simpl.
    repeat split; auto; try congruence; try discriminate.
    intros [H|H]; discriminate H. }
  assert (Hpass : fails_with is_status_error (check_key [(key, value)] key) = false).
  { apply (check_key_status_passed _ key value types val status); auto;
      now apply String.eqb_neq. }
  assert (Hs : fails_with is_status_error r = false).
  { rewrite Hr. now destruct (check_key [(key, value)] key). }
  repeat split.
  - intros H. exfalso. destruct r as [|e]; [discriminate|].
    simpl in *. destruct e as [[]| | | | | | | | |]; simpl in *; congruence.
  - intros [H|H]; congruence.
  - congruence.
  - auto.
Qed.

Lemma check_options_status_tag_witness :
  dict_get options "file_list"
  = Some (Descriptor [TStr; TList] None (Some "disallowed_file")) /\
  fails_with is_ForbiddenOption
    (check_options [("file_list", PList [PStr "a.dat"])] true) = true.
Proof.
  split; [reflexivity|].
  pose proof (check_options_status_tag "file_list" (PList [PStr "a.dat"])
                [TStr; TList] None "disallowed_file" eq_refl) as [H _].
  apply H. now right.
Defined.

(** C10.  The validator at the input of the claim: with
    [check_status=False] a path under ['kg_file_name'] is turned down by the
    block that inspects the status tag, with the forbidden-file error; the
    comparison with the values ['compensated'] and ['simple'] is never
    reached. *)
Theorem check_options_kg_file_name (path : string) (check_status : bool) :
  dict_get options "kg_file_name"
  = Some (Descriptor [TStr] (Some ["compensated"; "simple"]) (Some "disallowed_file")) /\
  check_options [("kg_file_name", PStr path)] check_status
  = Raise (ValueError (ForbiddenFile "kg_file_name")).
Proof. split; reflexivity. Qed.

(** ** The column schema catalog *)

Lemma column_maps_lengths_nodup :
  Forall (fun kind_maps => NoDup (map (@List.length string) (snd kind_maps)))
         column_maps.
Proof.
  vm_compute.
  repeat (apply Forall_cons || apply Forall_nil);
    repeat (apply NoDup_cons || apply NoDup_nil);
    simpl; intuition discriminate.
Qed.

Lemma column_maps_kind_nodup (kind : string) (maps : list (list string)) :
  dict_get column_maps kind = Some maps ->
  NoDup (map (@List.length string) maps).
Proof.
  intros Hget. apply dict_get_In in Hget.
  pose proof column_maps_lengths_nodup as Hall.
  rewrite Forall_forall in Hall. exact (Hall _ Hget).
Qed.

(** C4.  The catalog is injective by length within each kind: two
    candidate lists of one kind that have the same length sit at the same
    place in the list of candidates, that is, they are one candidate. *)
Theorem column_maps_injective_by_length (kind : string)
        (maps : list (list string)) (i j : nat) (a b : list string) :
  dict_get column_maps kind = Some maps ->
  nth_error maps i = Some a -> nth_error maps j = Some b ->
  List.length a = List.length b -> i = j.
Proof.
  intros Hget Ha Hb Hlen.
  pose proof (column_maps_kind_nodup kind maps Hget) as Hnd.
  rewrite NoDup_nth_error in Hnd. apply Hnd.
  - rewrite length_map. apply nth_error_Some. congruence.
  - rewrite !nth_error_map, Ha, Hb. simpl. now rewrite Hlen.
Qed.

Lemma column_maps_injective_by_length_witness :
  dict_get column_maps "k2"
  = Some [["r_nominal"; "r_mean"; "xi"; "sig_xi"; "weight"; "npairs"];
          ["r_nominal"; "r_mean"; "xi"; "sig_xi"; "weight"; "npairs";
           "r_sm"; "xi_sm"; "sig_sm"]] /\
  1 = 1.
Proof.
  split; [reflexivity|].
  apply (column_maps_injective_by_length "k2" _ 1 1 _ _ eq_refl eq_refl eq_refl).
  reflexivity.
Defined.

(** So a column count picks at most one list of a kind. *)
Lemma column_maps_length_determines (kind : string) (maps : list (list string))
      (a b : list string) :
  dict_get column_maps kind = Some maps ->
  In a maps -> In b maps -> List.length a = List.length b -> a = b.
Proof.
  intros Hget Ha Hb Hlen.
  pose proof (column_maps_kind_nodup kind maps Hget) as Hnd.
  clear Hget. induction maps as [|m maps IH]; [contradiction|].
  simpl in Hnd. inversion Hnd as [|? ? Hnotin Hnodup]; subst.
  destruct Ha as [->|Ha], Hb as [->|Hb]; auto.
  - exfalso. apply Hnotin. rewrite Hlen. now apply in_map.
  - exfalso. apply Hnotin. rewrite <- Hlen. now apply in_map.
Qed.

(** The kinds of the catalog and the column counts of each. *)
Example column_maps_lengths :
  map (fun kind_maps => (fst kind_maps, map (@List.length string) (snd kind_maps)))
      column_maps
  = [("n2", [6; 8]); ("ng", [5; 15; 8; 18]); ("g2", [9; 13]);
     ("nk", [6; 10; 9; 13]); ("k2", [6; 9]); ("kg", [7; 13; 10; 16]);
     ("m2", [8]); ("nm", [4]); ("norm", [12])].
Proof. reflexivity. Qed.

(** ** The result parser *)

Lemma array_truth_ambiguous (a : ndarray) :
  2 <= size a -> array_truth a = Raise (ValueError AmbiguousTruthValue).
Proof.
  unfold array_truth. destruct (size a) as [|[|n]]; [lia|lia|reflexivity].
Qed.

Lemma match_columns_cons (m : list string) (maps : list (list string))
      (lenline : nat) (use_col_map : option (list string)) :
  match_columns (m :: maps) lenline use_col_map = Raise (NameError "col_list").
Proof. reflexivity. Qed.

Lemma column_maps_nonempty (kind : string) (maps : list (list string)) :
  dict_get column_maps kind = Some maps -> maps <> [].
Proof.
  intros H. apply dict_get_In in H. vm_compute in H.
  repeat (destruct H as [H|H]; [injection H as _ <-; discriminate|]).
  contradiction.
Qed.

(** The parser returns no record set, whatever the file holds. *)
Lemma read_corr2_output_file_never_returns (loadtxt : string -> res ndarray)
      (file_name file_type : string) (records : record_set) :
  read_corr2_output_file loadtxt file_name file_type <> Ok records.
Proof.
  unfold read_corr2_output_file.
  destruct (dict_get column_maps file_type) as [maps|] eqn:Hmaps; [|discriminate].
  apply column_maps_nonempty in Hmaps.
  destruct (loadtxt file_name) as [output|]; [simpl|discriminate].
  destruct (array_truth output) as [[|]|]; simpl; try discriminate.
  destruct (last_dimension output); simpl; [|discriminate].
  destruct maps; [congruence|discriminate].
Qed.

(** C5.  The parser at the inputs of the claim, for kind ['k2'] and a file
    of one or more rows: with 7 columns, which no candidate has, it ends
    in the ValueError of the truth test [not output] and not in the
    schema-mismatch error; with 6 columns, which one candidate has, it ends
    in the same ValueError and names no column. *)
Theorem read_corr2_output_file_k2 (file_name : string) (rows : nat)
        (values : list spec_float) :
  read_corr2_output_file
    (fun _ => Ok {| shape := [S rows; 7]; data := values |}) file_name "k2"
  = Raise (ValueError AmbiguousTruthValue) /\
  read_corr2_output_file
    (fun _ => Ok {| shape := [S rows; 6]; data := values |}) file_name "k2"
  = Raise (ValueError AmbiguousTruthValue).
Proof.
  split; unfold read_corr2_output_file;
    change (dict_get column_maps "k2") with
      (Some [["r_nominal"; "r_mean"; "xi"; "sig_xi"; "weight"; "npairs"];
             ["r_nominal"; "r_mean"; "xi"; "sig_xi"; "weight"; "npairs";
              "r_sm"; "xi_sm"; "sig_sm"]]);
    cbv beta iota; unfold bind at 1;
    rewrite array_truth_ambiguous; try reflexivity;
    unfold size; simpl; lia.
Qed.

(** An array of one non-zero element gets past the truth test; the loop
    over the candidates then stops at the unbound name. *)
Example read_corr2_output_file_one_value :
  read_corr2_output_file
    (fun _ => Ok {| shape := [1]; data := [S754_finite false 1 0] |}) "out" "nm"
  = Raise (NameError "col_list").
Proof. reflexivity. Qed.

Example read_corr2_output_file_empty :
  read_corr2_output_file (fun _ => Ok {| shape := [0]; data := [] |}) "out" "n2"
  = Raise EmptyOutput.
Proof. reflexivity. Qed.

Example read_corr2_output_file_unknown_kind :
  read_corr2_output_file (fun _ => Ok {| shape := [0]; data := [] |}) "out" "gg"
  = Raise (TypeError NotEnoughFormatArguments).
Proof. reflexivity. Qed.

(** ** The serializer *)

(** A call with two positional arguments ends at once. *)
Lemma write_corr2_param_file_two_positional (file_exists : string -> bool)
      (fuel : nat) (f x : pyobj) (kwargs : pydict) (text : string) :
  write_corr2_param_file file_exists fuel [f; x] kwargs text
  = Some (text, Raise (TypeError TakesExactlyOneArgument)).
Proof. destruct fuel; reflexivity. Qed.

(** One level of calls is all there ever is. *)
Lemma write_entries_fuel (file_exists : string -> bool) (fuel : nat)
      (f : pyobj) (kwargs : pydict) (ks : list string) (text : string) :
  write_entries (write_corr2_param_file file_exists fuel) f kwargs ks text
  = write_entries (write_corr2_param_file file_exists 0) f kwargs ks text.
Proof.
  revert text. induction ks as [|key ks IH]; intros text; [reflexivity|].
  simpl. destruct (dict_get kwargs key) as [value|]; [|reflexivity].
  destruct (dict_in key options).
  - destruct (write_line f key value text) as [text' [[]|e]]; auto.
  - destruct value; try reflexivity.
    rewrite !write_corr2_param_file_two_positional. reflexivity.
Qed.

Lemma write_corr2_param_file_fuel (file_exists : string -> bool) (fuel : nat)
      (positional : list pyobj) (kwargs : pydict) (text : string) :
  write_corr2_param_file file_exists (S fuel) positional kwargs text
  = write_corr2_param_file file_exists 1 positional kwargs text.
Proof.
  simpl. destruct (bind_param_file_name positional kwargs) as [[p kw]|];
    [|reflexivity].
  unfold write_body.
  destruct (match p with Val (PStr name) => open file_exists name | _ => Ok p end);
    [|reflexivity].
  apply write_entries_fuel.
Qed.

Lemma write_corr2_param_file_total (file_exists : string -> bool) (fuel : nat)
      (positional : list pyobj) (kwargs : pydict) (text : string) :
  exists text' outcome,
    write_corr2_param_file file_exists (S fuel) positional kwargs text
    = Some (text', outcome).
Proof.
  rewrite write_corr2_param_file_fuel. simpl.
  destruct (bind_param_file_name positional kwargs) as [[p kw]|e]; [|eauto].
  unfold write_body.
  destruct (match p with Val (PStr name) => open file_exists name | _ => Ok p end)
    as [f|e]; [|eauto].
  generalize (keys kw). intros ks. revert text.
  induction ks as [|key ks IH]; intros text; simpl; [eauto|].
  destruct (dict_get kw key) as [value|]; [|eauto].
  destruct (dict_in key options).
  - destruct (write_line f key value text) as [text' [[]|e]]; eauto.
  - destruct value; eauto.
Qed.

(** C6.  The serializer at two valid configurations of registry keys.
    Given a file name, it opens the file for reading, and the first
    [write] ends in IOError; given a writable stream and the integer 4
    under ['precision'], which the validator accepts, the concatenation
    with the value ends in TypeError.  In both calls nothing is written. *)
Theorem write_corr2_param_file_valid_configuration
        (file_exists : string -> bool) (fuel : nat) (name text : string) :
  check_options [("sep_units", PStr "degrees")] false
  = Ok [("sep_units", PStr "degrees")] /\
  write_corr2_param_file file_exists (S fuel) [Val (PStr name)]
    [("sep_units", PStr "degrees")] text
  = Some (text, Raise IOError) /\
  check_options [("precision", PInt 4)] false = Ok [("precision", PInt 4)] /\
  write_corr2_param_file file_exists (S fuel) [FileObj true]
    [("precision", PInt 4)] text
  = Some (text, Raise (TypeError (CannotConcatenate (PInt 4)))).
Proof.
  repeat split.
  simpl. unfold write_body, open. now destruct (file_exists name).
Qed.

(** C7.  The serializer at a mapping bundled under a key that is not in the
    registry: the call it makes on the mapping passes two positional
    arguments and ends in TypeError, and nothing of the mapping is
    written. *)
Theorem write_corr2_param_file_nested (file_exists : string -> bool)
        (fuel : nat) (d : pydict) (text : string) :
  dict_in "corr2_options" options = false /\
  write_corr2_param_file file_exists (S fuel) [FileObj true]
    [("corr2_options", PDict d)] text
  = Some (text, Raise (TypeError TakesExactlyOneArgument)).
Proof.
  split; [reflexivity|].
  rewrite write_corr2_param_file_fuel. reflexivity.
Qed.

(** The other half of C7 holds: an entry with an unknown key and a value
    that is no mapping ends the call with the unknown-key error, once the
    entries before it are written. *)
Lemma write_entries_unknown_key (file_exists : string -> bool) (fuel : nat)
      (f : pyobj) (kwargs : pydict) (key : string) (value : pyval)
      (rest : list string) (text : string) :
  dict_in key options = false ->
  dict_get kwargs key = Some value ->
  (forall d, value <> PDict d) ->
  write_entries (write_corr2_param_file file_exists fuel) f kwargs (key :: rest) text
  = Some (text, Raise (UnserializableOption key)).
Proof.
  intros Hunknown Hget Hnodict. simpl. rewrite Hget, Hunknown.
  destruct value; try reflexivity. now destruct (Hnodict d).
Qed.

Example write_corr2_param_file_unknown_key :
  write_corr2_param_file (fun _ => true) 1 [FileObj true]
    [("sep_units", PStr "degrees"); ("bins", PStr "20")] ""
  = Some ("sep_units = degrees" ++ String "010" "",
          Raise (UnserializableOption "bins")).
Proof. reflexivity. Qed.

(** A registry key is written as a literal even when its value is a
    mapping, which the concatenation turns down. *)
Example write_corr2_param_file_registry_key_mapping :
  write_corr2_param_file (fun _ => true) 1 [FileObj true]
    [("sep_units", PDict [("x_units", PStr "degrees")])] ""
  = Some ("", Raise (TypeError (CannotConcatenate
                                  (PDict [("x_units", PStr "degrees")])))).
Proof. reflexivity. Qed.

(** *** What the serializer does write

    On a writable stream, a configuration of registry keys whose values are
    all strings is written one line per entry, and (for values without a
    line break) reading the text back gives the same pairs. *)

Lemma string_app_assoc (a b c : string) : ((a ++ b) ++ c = a ++ (b ++ c))%string.
Proof. induction a as [|x a IH]; simpl; [reflexivity|now rewrite IH]. Qed.

Lemma string_app_nil_r (a : string) : (a ++ "")%string = a.
Proof. induction a as [|x a IH]; simpl; [reflexivity|now rewrite IH]. Qed.

Lemma write_entries_strings (self : list pyobj -> pydict -> string -> option (string * res unit))
      (kwargs entries : pydict) (text : string) :
  (forall key value, In (key, value) entries ->
     dict_get kwargs key = Some value /\ dict_in key options = true /\
     exists v, value = PStr v) ->
  write_entries self (FileObj true) kwargs (keys entries) text
  = Some ((text ++ param_text (string_pairs entries))%string, Ok tt).
Proof.
  revert text. induction entries as [|[key value] entries IH]; intros text H.
  - simpl. now rewrite string_app_nil_r.
  - destruct (H key value (or_introl eq_refl)) as (Hget & Hin & v & ->).
    simpl. rewrite Hget, Hin. simpl.
    rewrite IH by (intros k x Hk; apply H; now right).
    unfold param_line, newline.
    rewrite !string_app_assoc. simpl. now rewrite !string_app_assoc.
Qed.

Lemma dict_get_nodup (V : Type) (d : list (string * V)) k v :
  NoDup (keys d) -> In (k, v) d -> dict_get d k = Some v.
Proof.
  induction d as [|[k' v'] d IH]; simpl; [tauto|].
  intros Hnd [Heq|Hin].
  - injection Heq as -> ->. now rewrite String.eqb_refl.
  - inversion Hnd as [|? ? Hnotin Hnd']; subst.
    destruct (String.eqb_spec k k') as [->|_]; [|auto].
    exfalso. apply Hnotin. change k' with (fst (k', v)). now apply in_map.
Qed.

Lemma registry_keys_only (kwargs : pydict) (k : string) :
  dict_in k options = false ->
  Forall (fun kv => dict_in (fst kv) options = true /\
                    exists v, snd kv = PStr v) kwargs ->
  dict_in k kwargs = false.
Proof.
  intros Hk. unfold dict_in at 2.
  induction 1 as [|[k' v'] rest [Hopt _] _ IH]; [reflexivity|].
  cbn [dict_get fst] in *.
  destruct (String.eqb_spec k k') as [->|_]; [congruence|exact IH].
Qed.

Lemma write_corr2_param_file_strings (file_exists : string -> bool) (fuel : nat)
      (kwargs : pydict) (text : string) :
  NoDup (keys kwargs) ->
  Forall (fun kv => dict_in (fst kv) options = true /\
                    exists v, snd kv = PStr v) kwargs ->
  write_corr2_param_file file_exists (S fuel) [FileObj true] kwargs text
  = Some ((text ++ param_text (string_pairs kwargs))%string, Ok tt).
Proof.
  intros Hnd Hall. cbn [write_corr2_param_file bind_param_file_name].
  rewrite (registry_keys_only kwargs "param_file_name" eq_refl Hall).
  unfold write_body.
  apply write_entries_strings. intros key value Hin.
  rewrite Forall_forall in Hall. destruct (Hall _ Hin) as [Hopt Hstr].
  split; [now apply dict_get_nodup|auto].
Qed.

Lemma lines_of_line (line rest : string) :
  has_char "010" line = false ->
  lines_of (line ++ newline ++ rest) = line :: lines_of rest.
Proof.
  induction line as [|c line IH]; [reflexivity|].
  change (has_char "010" (String c line))
    with (Ascii.eqb "010" c || has_char "010" line).
  intros H. apply orb_false_elim in H as [Hc Hline].
  rewrite Ascii.eqb_sym in Hc.
  cbn [lines_of append]. rewrite Hc. now rewrite (IH Hline).
Qed.

Lemma after_separator_other (c : ascii) (rest : string) :
  Ascii.eqb " " c = false -> after_separator (String c rest) = None.
Proof.
  destruct c as [[] [] [] [] [] [] [] []]; try reflexivity. discriminate.
Qed.

Lemma split_key_value_line (key value : string) :
  has_char " " key = false ->
  split_key_value (key ++ " = " ++ value) = Some (key, value).
Proof.
  induction key as [|c key IH]; [reflexivity|].
  change (has_char " " (String c key))
    with (Ascii.eqb " " c || has_char " " key).
  intros H. apply orb_false_elim in H as [Hc Hkey].
  change (split_key_value (String c key ++ " = " ++ value))
    with (match after_separator (String c (key ++ " = " ++ value)) with
          | Some v => Some ("", v)
          | None =>
              match split_key_value (key ++ " = " ++ value) with
              | Some (k, v) => Some (String c k, v)
              | None => None
              end
          end).
  now rewrite (after_separator_other _ _ Hc), (IH Hkey).
Qed.

Lemma has_char_app (c : ascii) (a b : string) :
  has_char c (a ++ b) = has_char c a || has_char c b.
Proof.
  unfold has_char. induction a as [|x a IH]; simpl; [reflexivity|].
  now rewrite IH, orb_assoc.
Qed.

Lemma parse_param_text_cons (line rest : string) :
  has_char "010" line = false ->
  parse_param_text (line ++ newline ++ rest)
  = ((match split_key_value line with Some kv => [kv] | None => [] end)
       ++ parse_param_text rest)%list.
Proof.
  intros H. unfold parse_param_text. now rewrite (lines_of_line _ _ H).
Qed.

(** Reading back the text of parameter lines. *)
Lemma parse_param_text_lines (pairs : list (string * string)) :
  Forall (fun kv => has_char " " (fst kv) = false /\
                    has_char "010" (fst kv) = false /\
                    has_char "010" (snd kv) = false) pairs ->
  parse_param_text (param_text pairs) = pairs.
Proof.
  induction 1 as [|[key value] pairs (Hsp & Hk & Hv) _ IH]; [reflexivity|].
  cbn [fst snd] in *.
  change (param_text ((key, value) :: pairs))
    with (((key ++ " = " ++ value ++ newline) ++ param_text pairs)%string).
  replace (((key ++ " = " ++ value ++ newline) ++ param_text pairs)%string)
    with (((key ++ " = " ++ value) ++ newline ++ param_text pairs)%string).
  - rewrite parse_param_text_cons.
    + now rewrite (split_key_value_line _ _ Hsp), IH.
    + rewrite !has_char_app, Hk, Hv. reflexivity.
  - rewrite !string_app_assoc. cbn [append]. rewrite ?string_app_assoc.
    reflexivity.
Qed.

(** The keys of the registry hold neither a blank nor a line break. *)
Lemma options_keys_plain (key : string) :
  dict_in key options = true ->
  has_char " " key = false /\ has_char "010" key = false.
Proof.
  unfold dict_in. destruct (dict_get options key) as [e|] eqn:H; [|discriminate].
  intros _. registry_cases H; split; reflexivity.
Qed.

Example write_then_parse :
  write_corr2_param_file (fun _ => false) 1 [FileObj true]
    [("ra_units", PStr "degrees"); ("sep_units", PStr "arcmin")] ""
  = Some (param_text [("ra_units", "degrees"); ("sep_units", "arcmin")], Ok tt) /\
  parse_param_text (param_text [("ra_units", "degrees"); ("sep_units", "arcmin")])
  = [("ra_units", "degrees"); ("sep_units", "arcmin")].
Proof. split; reflexivity. Qed.

(** A line break in a value does not survive the round trip. *)
Example parse_param_text_line_break :
  parse_param_text (param_text [("ra_units", "deg" ++ newline ++ "x = y")])
  = [("ra_units", "deg"); ("x", "y")].
Proof. reflexivity. Qed.

Lemma write_then_parse_strings (file_exists : string -> bool) (fuel : nat)
      (kwargs : pydict) :
  NoDup (keys kwargs) ->
  Forall (fun kv => dict_in (fst kv) options = true /\
                    exists v, snd kv = PStr v /\ has_char "010" v = false)
         kwargs ->
  exists text,
    write_corr2_param_file file_exists (S fuel) [FileObj true] kwargs ""
    = Some (text, Ok tt) /\
    parse_param_text text = string_pairs kwargs.
Proof.
  intros Hnd Hall. exists (param_text (string_pairs kwargs)). split.
  - rewrite (write_corr2_param_file_strings file_exists fuel kwargs "" Hnd);
      [reflexivity|].
    eapply Forall_impl; [|exact Hall].
    intros kv (Hopt & v & Hv & _). eauto.
  - apply parse_param_text_lines. clear Hnd.
    induction Hall as [|[key value] rest (Hopt & v & Hv & Hline) _ IH];
      [constructor|].
    cbn [fst snd] in *. subst value. cbn [string_pairs].
    constructor; [|exact IH].
    destruct (options_keys_plain key Hopt). cbn [fst snd]. auto.
Qed.

(** ** The orchestrator *)

Section GetCF.
Variable AddCorr2Dict : pydict -> res pydict.
Variable MakeCorr2FileKwargs : pyval -> pyval -> pyval -> pyval -> res pydict.
Variable WriteCorr2ConfigurationFile : string -> pydict -> res unit.
Variable ReadCorr2ResultsFile : string -> res pyval.
Variable exit_status : list string -> Z.
Variable temp_name : option string -> nat -> string.

Variables (stile_args kwargs : pydict) (kind : string).
Variables (data data2 random random2 : pyval) (save_config : bool).

Lemma getCF_merge_fails (e : exn) (w : world) :
  merge_kwargs AddCorr2Dict MakeCorr2FileKwargs
               stile_args data data2 random random2 kwargs = Raise e ->
  getCF AddCorr2Dict MakeCorr2FileKwargs WriteCorr2ConfigurationFile
        ReadCorr2ResultsFile exit_status temp_name
        stile_args kind data data2 random random2 save_config kwargs w
  = (Raise e, w).
  Proof.
    intros H. unfold getCF, bindM, lift. now rewrite H.
  Qed.

  (** A failed check of the file options ends the call in the world it
      started in: no temporary file, no process. *)
Lemma getCF_check_fails (corr2_kwargs : pydict) (e : exn) (w : world) :
  merge_kwargs AddCorr2Dict MakeCorr2FileKwargs
               stile_args data data2 random random2 kwargs = Ok corr2_kwargs ->
  check_files corr2_kwargs = Raise e ->
  getCF AddCorr2Dict MakeCorr2FileKwargs WriteCorr2ConfigurationFile
        ReadCorr2ResultsFile exit_status temp_name
        stile_args kind data data2 random random2 save_config kwargs w
  = (Raise e, w).
  Proof.
    intros Hm Hc. unfold getCF, bindM, lift.
    now rewrite Hm, Hc.
  Qed.

  (** The call once the check of the file options has passed. *)
Lemma getCF_after_checks (corr2_kwargs : pydict) (w : world) :
  merge_kwargs AddCorr2Dict MakeCorr2FileKwargs
               stile_args data data2 random random2 kwargs = Ok corr2_kwargs ->
  check_files corr2_kwargs = Ok tt ->
    let handle1 := lowest_free (open_handles w) in
    let handle2 := lowest_free (open_handles w ++ [handle1]) in
    let config_file :=
      temp_name (if save_config then Some "." else None) (fresh w) in
    let output_file := temp_name None (S (fresh w)) in
    let created := (temp_files w ++ [config_file; output_file])%list in
    let opened := (open_handles w ++ [handle1; handle2])%list in
    let w2 := {| open_handles := opened; temp_files := created;
                 spawned := spawned w; fresh := S (S (fresh w)) |} in
    let w3 := {| open_handles := opened; temp_files := created;
                 spawned := (spawned w ++ [["corr2"; config_file]])%list;
                 fresh := S (S (fresh w)) |} in
    let w4 := {| open_handles := remove_handle handle2 (remove_handle handle1 opened);
                 temp_files := created;
                 spawned := (spawned w ++ [["corr2"; config_file]])%list;
                 fresh := S (S (fresh w)) |} in
    getCF AddCorr2Dict MakeCorr2FileKwargs WriteCorr2ConfigurationFile
          ReadCorr2ResultsFile exit_status temp_name
          stile_args kind data data2 random random2 save_config kwargs w =
    match WriteCorr2ConfigurationFile config_file
            (dict_set corr2_kwargs (kind ++ "_file_name") (PStr output_file)) with
    | Raise e => (Raise e, w2)
    | Ok _ =>
        if Z.eqb (exit_status ["corr2"; config_file]) 0
        then match ReadCorr2ResultsFile output_file with
             | Raise e => (Raise e, w3)
             | Ok return_value => (Ok return_value, w4)
             end
        else (Raise (CalledProcessError (exit_status ["corr2"; config_file])), w3)
    end.
  Proof.
    intros Hm Hc. unfold getCF, bindM, lift.
    rewrite Hm, Hc. cbn [mkstemp open_handles temp_files spawned fresh].
    rewrite <- !app_assoc. cbn [app].
    destruct (WriteCorr2ConfigurationFile _ _); [|reflexivity].
    unfold check_call. cbn [open_handles temp_files spawned fresh].
    destruct (Z.eqb _ 0); [|reflexivity].
    destruct (ReadCorr2ResultsFile _); reflexivity.
  Qed.
End GetCF.

Lemma check_files_no_file (corr2_kwargs : pydict) :
  dict_in "file_name" corr2_kwargs = false ->
  dict_in "file_list" corr2_kwargs = false ->
  check_files corr2_kwargs = Raise (ValueError MustContainFileKwarg).
Proof. intros H1 H2. unfold check_files. now rewrite H1, H2. Qed.


(** The first half of C8 holds: with neither ['file_name'] nor
    ['file_list'] in the merged configuration the call ends with the error
    of the check before it has called [mkstemp] or [check_call].  (What
    [MakeCorr2FileKwargs] wrote to disk for the data sets before the check
    is no part of the world kept here.) *)
Lemma getCF_no_file_kwarg
      (AddCorr2Dict : pydict -> res pydict)
      (MakeCorr2FileKwargs : pyval -> pyval -> pyval -> pyval -> res pydict)
      (WriteCorr2ConfigurationFile : string -> pydict -> res unit)
      (ReadCorr2ResultsFile : string -> res pyval)
      (exit_status : list string -> Z) (temp_name : option string -> nat -> string)
      (stile_args kwargs corr2_kwargs : pydict) (kind : string)
      (data data2 random random2 : pyval) (save_config : bool) (w : world) :
  merge_kwargs AddCorr2Dict MakeCorr2FileKwargs stile_args data data2 random
               random2 kwargs = Ok corr2_kwargs ->
  dict_in "file_name" corr2_kwargs = false ->
  dict_in "file_list" corr2_kwargs = false ->
  getCF AddCorr2Dict MakeCorr2FileKwargs WriteCorr2ConfigurationFile
        ReadCorr2ResultsFile exit_status temp_name
        stile_args kind data data2 random random2 save_config kwargs w
  = (Raise (ValueError MustContainFileKwarg), w).
Proof.
  intros Hm H1 H2.
  apply (getCF_check_fails _ _ _ _ _ _ _ _ _ _ _ _ _ _ corr2_kwargs); auto.
  now apply check_files_no_file.
Qed.

(** C8.  The orchestrator at a merged configuration that names a random
    file for the second data set (['rand_file_name2']) and no second data
    set: the check of the file options passes, because it looks for the
    keys ['rand_list2'] and ['rand_name2'], and the call goes on to create
    its two temporary files. *)
Theorem getCF_random2_without_file2
        (AddCorr2Dict : pydict -> res pydict)
        (WriteCorr2ConfigurationFile : string -> pydict -> res unit)
        (ReadCorr2ResultsFile : string -> res pyval)
        (exit_status : list string -> Z) (temp_name : option string -> nat -> string)
        (kind : string) (w : world) :
  let corr2_kwargs := [("file_name", PStr "lens.dat");
                       ("rand_file_name2", PStr "rand2.dat")] in
  let stile_args := [("corr2_kwargs", PDict corr2_kwargs)] in
  merge_kwargs AddCorr2Dict no_file_kwargs stile_args PNone PNone PNone PNone []
  = Ok corr2_kwargs /\
  check_files corr2_kwargs = Ok tt /\
  temp_files
    (snd (getCF AddCorr2Dict no_file_kwargs WriteCorr2ConfigurationFile
                ReadCorr2ResultsFile exit_status temp_name
                stile_args kind PNone PNone PNone PNone false [] w))
  = (temp_files w ++ [temp_name None (fresh w); temp_name None (S (fresh w))])%list.
Proof.
  intros corr2_kwargs stile_args.
  split; [reflexivity|]. split; [reflexivity|].
  rewrite (getCF_after_checks AddCorr2Dict no_file_kwargs WriteCorr2ConfigurationFile
             ReadCorr2ResultsFile exit_status temp_name stile_args [] kind
             PNone PNone PNone PNone false corr2_kwargs w eq_refl eq_refl).
  cbv zeta.
  destruct (WriteCorr2ConfigurationFile _ _); [|reflexivity].
  destruct (Z.eqb _ 0); [|reflexivity].
  destruct (ReadCorr2ResultsFile _); reflexivity.
Qed.

(** With the keys the check does look for, the call is turned down. *)
Example check_files_rand_name2 :
  check_files [("file_name", PStr "lens.dat"); ("rand_name2", PStr "rand2.dat")]
  = Raise (ValueError RandomFileWithoutFile2).
Proof. reflexivity. Qed.

(** C9.  The orchestrator in the empty world, with an engine that exits
    with status 1, then with a parser that raises, then with both
    succeeding.  The descriptors are collected in [handles] and closed by
    the loop after [ReadCorr2ResultsFile]; an exception raised before that
    loop skips it, so the two failed calls end with the descriptors 0 and 1
    still open, where the successful call has closed them. *)
Theorem getCF_failure_leaves_descriptors_open :
  let stile_args := [("corr2_kwargs", PDict [("file_name", PStr "lens.dat")])] in
  let call exit_status parse :=
    getCF AddCorr2Dict_unbound no_file_kwargs (fun _ _ => Ok tt)
          parse exit_status (fun _ n => String (ascii_of_nat (48 + n)) "")
          stile_args "ng" PNone PNone PNone PNone false [] empty_world in
  let engine_fails := call (fun _ => 1%Z) (fun _ => Ok PNone) in
  let parse_fails := call (fun _ => 0%Z) (fun _ => Raise (RuntimeError EmptyFile)) in
  let succeeds := call (fun _ => 0%Z) (fun _ => Ok PNone) in
  fst engine_fails = Raise (CalledProcessError 1) /\
  open_handles (snd engine_fails) = [0; 1] /\
  fst parse_fails = Raise (RuntimeError EmptyFile) /\
  open_handles (snd parse_fails) = [0; 1] /\
  fst succeeds = Ok PNone /\
  open_handles (snd succeeds) = [].
Proof. repeat split. Qed.

(** The descriptors of a call that fails after its temporary files were
    made: both are left open, whichever step failed. *)
Lemma getCF_failure_handles
      (AddCorr2Dict : pydict -> res pydict)
      (MakeCorr2FileKwargs : pyval -> pyval -> pyval -> pyval -> res pydict)
      (WriteCorr2ConfigurationFile : string -> pydict -> res unit)
      (ReadCorr2ResultsFile : string -> res pyval)
      (exit_status : list string -> Z) (temp_name : option string -> nat -> string)
      (stile_args kwargs corr2_kwargs : pydict) (kind : string)
      (data data2 random random2 : pyval) (save_config : bool) (w : world)
      (e : exn) :
  merge_kwargs AddCorr2Dict MakeCorr2FileKwargs stile_args data data2 random
               random2 kwargs = Ok corr2_kwargs ->
  check_files corr2_kwargs = Ok tt ->
  let result :=
    getCF AddCorr2Dict MakeCorr2FileKwargs WriteCorr2ConfigurationFile
          ReadCorr2ResultsFile exit_status temp_name
          stile_args kind data data2 random random2 save_config kwargs w in
  fst result = Raise e ->
  open_handles (snd result)
  = (open_handles w
       ++ [lowest_free (open_handles w);
           lowest_free (open_handles w ++ [lowest_free (open_handles w)])])%list.
Proof.
  intros Hm Hc result. subst result.
  rewrite (getCF_after_checks AddCorr2Dict MakeCorr2FileKwargs
             WriteCorr2ConfigurationFile ReadCorr2ResultsFile exit_status
             temp_name stile_args kwargs kind data data2 random random2
             save_config corr2_kwargs w Hm Hc).
  cbv zeta.
  destruct (WriteCorr2ConfigurationFile _ _); [|reflexivity].
  destruct (Z.eqb _ 0); [|reflexivity].
  destruct (ReadCorr2ResultsFile _); [discriminate|reflexivity].
Qed.

(** * Further properties of the code *)

(** ** Dictionaries *)

Lemma dict_get_set_same (V : Type) (d : list (string * V)) k v :
  dict_get (dict_set d k v) k = Some v.
Proof.
  induction d as [|[k' v'] d IH]; simpl.
  - now rewrite String.eqb_refl.
  - destruct (String.eqb_spec k k') as [->|Hne]; simpl.
    + now rewrite String.eqb_refl.
    + destruct (String.eqb_spec k k'); [congruence|exact IH].
Qed.

Lemma dict_get_set_other (V : Type) (d : list (string * V)) k k' v :
  k' <> k -> dict_get (dict_set d k v) k' = dict_get d k'.
Proof.
  intros Hne. induction d as [|[k0 v0] d IH]; simpl.
  - destruct (String.eqb_spec k' k); [congruence|reflexivity].
  - destruct (String.eqb_spec k k0) as [->|Hk]; simpl.
    + destruct (String.eqb_spec k' k0); [congruence|reflexivity].
    + destruct (String.eqb_spec k' k0); [reflexivity|exact IH].
Qed.

Lemma keys_dict_set_in (V : Type) (d : list (string * V)) k v :
  In k (keys (dict_set d k v)).
Proof.
  induction d as [|[k' v'] d IH]; simpl; [now left|].
  destruct (String.eqb_spec k k') as [->|Hne]; simpl; auto.
Qed.

Lemma dict_set_keys_incl (V : Type) (d : list (string * V)) k v x :
  In x (keys (dict_set d k v)) -> x = k \/ In x (keys d).
Proof.
  induction d as [|[k' v'] d IH]; simpl.
  - intros [<-|[]]. now left.
  - destruct (String.eqb_spec k k') as [->|Hne]; simpl.
    + tauto.
    + intros [<-|H]; [tauto|]. destruct (IH H); tauto.
Qed.

Lemma dict_set_nodup (V : Type) (d : list (string * V)) k v :
  NoDup (keys d) -> NoDup (keys (dict_set d k v)).
Proof.
  induction d as [|[k' v'] d IH]; simpl; intros Hnd.
  - constructor; [tauto|constructor].
  - inversion Hnd as [|? ? Hnotin Hnd']; subst.
    destruct (String.eqb_spec k k') as [->|Hne]; simpl.
    + now constructor.
    + constructor; [|auto].
      intros Hin. apply dict_set_keys_incl in Hin as [Heq|Hin]; congruence.
Qed.

Lemma dict_get_keys (V : Type) (d : list (string * V)) k :
  In k (keys d) <-> dict_in k d = true.
Proof.
  unfold dict_in. induction d as [|[k' v'] d IH]; simpl.
  - split; [tauto|discriminate].
  - destruct (String.eqb_spec k k') as [->|Hne]; [tauto|].
    rewrite <- IH. split; [intros [H|H]; congruence || exact H|tauto].
Qed.

Lemma dict_get_app_r (V : Type) (d e : list (string * V)) k :
  ~ In k (keys d) -> dict_get (d ++ e)%list k = dict_get e k.
Proof.
  induction d as [|[k' v'] d IH]; simpl; [reflexivity|].
  intros Hnotin. destruct (String.eqb_spec k k') as [->|Hne]; [tauto|].
  apply IH. tauto.
Qed.

(** [d.update(e)]: the keys of [e] take their value from [e], the others
    keep the one they had. *)
Lemma dict_get_update (V : Type) (d e : list (string * V)) k :
  NoDup (keys e) ->
  dict_get (dict_update d e) k
  = match dict_get e k with Some v => Some v | None => dict_get d k end.
Proof.
  unfold dict_update. revert d.
  induction e as [|[k' v'] e IH]; intros d Hnd; [reflexivity|].
  inversion Hnd as [|? ? Hnotin Hnd']; subst.
  cbn [fold_left fst snd]. rewrite (IH _ Hnd'). cbn [dict_get].
  destruct (String.eqb_spec k k') as [->|Hne].
  - assert (He : dict_get e k' = None).
    { apply dict_in_false. destruct (dict_in k' e) eqn:H; [|reflexivity].
      apply dict_get_keys in H. contradiction. }
    rewrite He. apply dict_get_set_same.
  - destruct (dict_get e k); [reflexivity|].
    now apply dict_get_set_other.
Qed.

Lemma dict_update_nodup (V : Type) (d e : list (string * V)) :
  NoDup (keys d) -> NoDup (keys (dict_update d e)).
Proof.
  unfold dict_update. revert d.
  induction e as [|[k v] e IH]; intros d Hnd; [exact Hnd|].
  cbn [fold_left]. apply IH. now apply dict_set_nodup.
Qed.

(** ** The validator, further *)

Lemma check_keys_ok (d : pydict) (ks : list string) :
  check_keys d ks = Ok tt <-> Forall (fun k => check_key d k = Ok tt) ks.
Proof.
  induction ks as [|k ks IH]; simpl.
  - split; [constructor|reflexivity].
  - destruct (check_key d k) as [[]|e] eqn:Hk; simpl.
    + rewrite IH. split; [now constructor|now inversion 1].
    + split; [discriminate|]. inversion 1; congruence.
Qed.

Lemma check_keys_raise (d : pydict) (ks : list string) (e : exn) :
  check_keys d ks = Raise e -> exists k, In k ks /\ check_key d k = Raise e.
Proof.
  induction ks as [|k ks IH]; simpl; [discriminate|].
  destruct (check_key d k) as [[]|e'] eqn:Hk; simpl.
  - intros H. destruct (IH H) as (k' & Hin & Hr). eauto.
  - intros [= <-]. eauto.
Qed.

Lemma check_options_ok_iff (d : pydict) (check_status : bool) :
  check_options d check_status = Ok d <->
  Forall (fun k => check_key d k = Ok tt) (keys d).
Proof.
  rewrite <- check_keys_ok. unfold check_options.
  destruct (check_keys d (keys d)) as [[]|e]; simpl; split;
    congruence || reflexivity.
Qed.

(** A key passes only with a status that is none of the three the
    validator turns down. *)
Lemma check_key_ok_status (d : pydict) (key : string) :
  check_key d key = Ok tt ->
  exists types val status,
    dict_get options key = Some (Descriptor types val (Some status)) /\
    status <> "disallowed_file" /\ status <> "disallowed_computation" /\
    status <> "captured".
Proof.
  unfold check_key.
  destruct (dict_get options key) as [[types val [status|]|s]|];
    try discriminate.
  simpl.
  destruct (String.eqb_spec status "disallowed_file"); [discriminate|].
  destruct (String.eqb_spec status "disallowed_computation"); [discriminate|].
  destruct (String.eqb_spec status "captured"); [discriminate|].
  intros _. eauto 10.
Qed.

(** The validator passes a configuration only if every key of it is a
    registry option with the status ['allowed'], and then returns the
    configuration it was given: a configuration with a ['captured'] or
    ['disallowed_...'] option is rejected with either value of
    [check_status]. *)
Theorem check_options_ok_allowed (d d' : pydict) (check_status : bool) :
  check_options d check_status = Ok d' ->
  d' = d /\
  forall key, In key (keys d) ->
    exists types val,
      dict_get options key = Some (Descriptor types val (Some "allowed")).
Proof.
  intros H. apply check_options_ok_inv in H as [Hks ->].
  split; [reflexivity|]. intros key Hin.
  rewrite check_keys_ok, Forall_forall in Hks.
  destruct (check_key_ok_status d key (Hks key Hin))
    as (types & val & status & Hopt & H1 & H2 & H3).
  exists types, val.
  pose proof (options_status key types val status Hopt) as Hst.
  simpl in Hst. destruct Hst as [<-|[<-|[<-|[<-|[]]]]]; congruence.
Qed.

Lemma check_options_ok_allowed_witness :
  exists types val,
    dict_get options "precision" = Some (Descriptor types val (Some "allowed")).
Proof.
  apply (check_options_ok_allowed
           [("sep_units", PStr "arcmin"); ("precision", PInt 4)]
           [("sep_units", PStr "arcmin"); ("precision", PInt 4)] false).
  - reflexivity.
  - simpl. tauto.
Defined.







(** A rejected configuration stays rejected, with the same error, however
    many entries are added after its own. *)
Theorem check_options_extend_rejected (d post : pydict) (e : exn)
        (check_status : bool) :
  check_options d check_status = Raise e ->
  check_options (d ++ post)%list check_status = Raise e.
Proof.
  unfold check_options, keys. rewrite map_app, check_keys_app.
  fold (keys d). rewrite check_keys_app_l by apply incl_refl.
  destruct (check_keys d (keys d)) as [[]|e']; simpl; [discriminate|].
  now intros [= ->].
Qed.

Lemma check_options_extend_rejected_witness :
  check_options [("nbins", PInt 20); ("sep_units", PStr "arcmin")] true
  = Raise (ValueError (ShouldHaveBeenCaptured "nbins")).
Proof.
  apply (check_options_extend_rejected [("nbins", PInt 20)]
           [("sep_units", PStr "arcmin")]
           (ValueError (ShouldHaveBeenCaptured "nbins")) true).
  reflexivity.
Defined.

(** Two configurations with no key in common pass together exactly when
    each passes alone. *)
Theorem check_options_app (d1 d2 : pydict) (check_status : bool) :
  NoDup (keys (d1 ++ d2)%list) ->
  (check_options (d1 ++ d2)%list check_status = Ok (d1 ++ d2)%list <->
   check_options d1 check_status = Ok d1 /\
   check_options d2 check_status = Ok d2).
Proof.
  intros Hnd. rewrite !check_options_ok_iff.
  unfold keys in *. rewrite map_app in *. rewrite Forall_app.
  assert (H1 : forall k, In k (map fst d1) ->
                         check_key (d1 ++ d2)%list k = check_key d1 k).
  { intros k Hk. apply check_key_ext. now apply dict_get_app_l. }
  assert (H2 : forall k, In k (map fst d2) ->
                         check_key (d1 ++ d2)%list k = check_key d2 k).
  { intros k Hk. apply check_key_ext. apply dict_get_app_r.
    intros Hin. unfold keys in Hin. revert Hnd Hin Hk. clear.
    induction (map fst d1) as [|x l IH]; simpl; [tauto|].
    intros Hnd [->|Hin] Hk.
    - inversion Hnd as [|? ? Hnotin _]; subst. apply Hnotin.
      apply in_or_app. now right.
    - inversion Hnd; subst. auto. }
  rewrite !Forall_forall.
  split.
  - intros [Ha Hb]. split; intros k Hk.
    + rewrite <- H1 by exact Hk. auto.
    + rewrite <- H2 by exact Hk. auto.
  - intros [Ha Hb]. split; intros k Hk.
    + rewrite H1 by exact Hk. auto.
    + rewrite H2 by exact Hk. auto.
Qed.

Lemma check_options_app_witness :
  check_options [("sep_units", PStr "arcmin"); ("precision", PInt 4)] true
  = Ok [("sep_units", PStr "arcmin"); ("precision", PInt 4)].
Proof.
  apply (check_options_app [("sep_units", PStr "arcmin")]
           [("precision", PInt 4)] true).
  - repeat constructor; simpl; intuition discriminate.
  - split; reflexivity.
Defined.

(** ** Harvesting the corr2 options *)

Lemma existsb_keys (V : Type) (d : list (string * V)) k :
  existsb (String.eqb k) (keys d) = dict_in k d.
Proof.
  unfold dict_in. induction d as [|[k' v'] d IH]; simpl; [reflexivity|].
  destruct (String.eqb k k'); [reflexivity|exact IH].
Qed.

Lemma harvest_fold (d : pydict) (ks : list string) (acc : pydict) k :
  dict_get
    (fold_left (fun corr2_dict key =>
                  match dict_get d key with
                  | Some value => dict_set corr2_dict key value
                  | None => corr2_dict
                  end) ks acc) k
  = if existsb (String.eqb k) ks
    then match dict_get d k with Some v => Some v | None => dict_get acc k end
    else dict_get acc k.
Proof.
  revert acc. induction ks as [|a ks IH]; intros acc; [reflexivity|].
  cbn [fold_left existsb]. rewrite IH.
  destruct (String.eqb_spec k a) as [->|Hne]; cbn [orb].
  - destruct (dict_get d a) as [v|] eqn:Ha.
    + rewrite dict_get_set_same. now destruct (existsb _ ks).
    + now destruct (existsb _ ks).
  - assert (Hacc : dict_get match dict_get d a with
                            | Some value => dict_set acc a value
                            | None => acc
                            end k = dict_get acc k).
    { destruct (dict_get d a); [now apply dict_get_set_other|reflexivity]. }
    now rewrite Hacc.
Qed.

(** What was harvested: the entries of the input under registry keys, with
    the values they have in the input. *)
Lemma dict_get_harvest (d : pydict) k :
  dict_get (harvest d) k = if dict_in k options then dict_get d k else None.
Proof.
  unfold harvest. rewrite harvest_fold, existsb_keys.
  destruct (dict_in k options); [|reflexivity].
  now destruct (dict_get d k).
Qed.

Lemma harvest_nodup (d : pydict) : NoDup (keys (harvest d)).
Proof.
  unfold harvest.
  assert (H : forall ks acc, NoDup (keys acc) ->
    NoDup (keys (fold_left (fun corr2_dict key =>
                              match dict_get d key with
                              | Some value => dict_set corr2_dict key value
                              | None => corr2_dict
                              end) ks acc))).
  { induction ks as [|a ks IH]; intros acc Hacc; [exact Hacc|].
    cbn [fold_left]. apply IH.
    destruct (dict_get d a); [now apply dict_set_nodup|exact Hacc]. }
  apply H. constructor.
Qed.

Lemma harvest_ext (d d' : pydict) :
  (forall k, dict_in k options = true -> dict_get d k = dict_get d' k) ->
  harvest d = harvest d'.
Proof.
  intros H. unfold harvest.
  assert (Hks : forall k, In k (keys options) -> dict_get d k = dict_get d' k).
  { intros k Hk. apply H. now apply dict_get_keys. }
  clear H. generalize (@nil (string * pyval)).
  induction (keys options) as [|a ks IH]; intros acc; [reflexivity|].
  cbn [fold_left]. rewrite (Hks a (or_introl eq_refl)).
  apply IH. intros k Hk. apply Hks. now right.
Qed.

Lemma add_corr2_dict_other_keys (d d' : pydict) (k : string) :
  add_corr2_dict d = Ok d' -> k <> "corr2_options" ->
  dict_get d' k = dict_get d k.
Proof.
  unfold add_corr2_dict. generalize (harvest d). intros h.
  destruct (dict_get d "corr2_options") as [old|].
  - destruct old as [| | | | | |existing];
      try (intros H; exfalso; inversion H; fail).
    intros H Hk. injection H as <-. now apply dict_get_set_other.
  - intros H Hk. injection H as <-. now apply dict_get_set_other.
Qed.

(** [add_corr2_dict] touches the key ['corr2_options'] only; what it leaves
    under that key holds every entry of the input whose key is in the
    registry, with the value of the input, over the entries that were
    already there. *)
Theorem add_corr2_dict_lookup (d d' : pydict) :
  add_corr2_dict d = Ok d' ->
  (forall k, k <> "corr2_options" -> dict_get d' k = dict_get d k) /\
  exists c,
    dict_get d' "corr2_options" = Some (PDict c) /\
    forall k,
      dict_get c k
      = if dict_in k options && dict_in k d then dict_get d k
        else match dict_get d "corr2_options" with
             | Some (PDict existing) => dict_get existing k
             | _ => None
             end.
Proof.
  unfold add_corr2_dict. generalize (harvest_nodup d) (dict_get_harvest d).
  generalize (harvest d). intros h Hnd Hget.
  destruct (dict_get d "corr2_options") as [old|] eqn:Hold.
  - destruct old as [| | | | | |existing];
      try (intros H; exfalso; inversion H; fail).
    intros H. injection H as <-.
    split; [intros k Hk; now apply dict_get_set_other|].
    eexists. split; [apply dict_get_set_same|]. intros k.
    rewrite (dict_get_update _ _ _ _ Hnd), Hget.
    destruct (dict_in k options); cbn [andb]; [|reflexivity].
    unfold dict_in. now destruct (dict_get d k).
  - intros H. injection H as <-.
    split; [intros k Hk; now apply dict_get_set_other|].
    eexists. split; [apply dict_get_set_same|]. intros k.
    rewrite Hget.
    destruct (dict_in k options); cbn [andb]; [|reflexivity].
    unfold dict_in. now destruct (dict_get d k).
Qed.

Lemma add_corr2_dict_lookup_witness :
  add_corr2_dict [("nbins", PInt 20); ("verbosity", PInt 1);
                  ("corr2_options", PDict [("nbins", PInt 10)])]
  = Ok [("nbins", PInt 20); ("verbosity", PInt 1);
        ("corr2_options", PDict [("nbins", PInt 20)])] /\
  dict_get [("nbins", PInt 20); ("verbosity", PInt 1);
            ("corr2_options", PDict [("nbins", PInt 20)])] "verbosity"
  = dict_get [("nbins", PInt 20); ("verbosity", PInt 1);
              ("corr2_options", PDict [("nbins", PInt 10)])] "verbosity".
Proof.
  assert (H : add_corr2_dict [("nbins", PInt 20); ("verbosity", PInt 1);
                              ("corr2_options", PDict [("nbins", PInt 10)])]
              = Ok [("nbins", PInt 20); ("verbosity", PInt 1);
                    ("corr2_options", PDict [("nbins", PInt 20)])])
    by (vm_compute; reflexivity).
  split; [exact H|].
  apply (add_corr2_dict_lookup _ _ H). discriminate.
Defined.

Lemma check_key_not_understood (d : pydict) (k key : string) :
  check_key d k = Raise (ValueError (NotUnderstood key)) ->
  dict_get options k = None.
Proof.
  unfold check_key.
  destruct (dict_get options k) as [[types val [status|]|s]|];
    [|discriminate|discriminate|reflexivity].
  simpl.
  destruct (String.eqb status "disallowed_file"); [discriminate|].
  destruct (String.eqb status "disallowed_computation"); [discriminate|].
  destruct (String.eqb status "captured"); [discriminate|].
  simpl. destruct (dict_get d k) as [value|]; [simpl|discriminate].
  destruct (existsb (has_type value) types); simpl;
    [|destruct (existsb _ types); simpl; [|discriminate]];
    (destruct (truthy_val val); [|discriminate]);
    (destruct val as [vals|]; [|discriminate]);
    destruct (value_in value vals); discriminate.
Qed.

(** The validator never reports an unknown option on what was harvested:
    the harvest holds registry keys only. *)
Theorem check_options_harvest_known (d : pydict) (check_status : bool)
        (key : string) :
  check_options (harvest d) check_status <> Raise (UnknownOption key).
Proof.
  unfold check_options, UnknownOption.
  generalize (dict_get_harvest d). generalize (harvest d). intros h Hget.
  destruct (check_keys h (keys h)) as [[]|e] eqn:Hks;
    cbn [bind]; [discriminate|].
  intros H. injection H as ->.
  apply check_keys_raise in Hks as (k & Hin & Hk).
  apply check_key_not_understood in Hk.
  apply dict_get_keys in Hin. unfold dict_in in Hin.
  rewrite Hget in Hin.
  unfold dict_in in Hin. rewrite Hk in Hin. discriminate.
Qed.

Lemma dict_set_same_value (V : Type) (d : list (string * V)) k v :
  dict_get d k = Some v -> dict_set d k v = d.
Proof.
  induction d as [|[k' v'] d IH]; simpl; [discriminate|].
  destruct (String.eqb_spec k k') as [->|Hne].
  - now intros [= ->].
  - intros H. now rewrite (IH H).
Qed.

Lemma dict_set_twice (V : Type) (d : list (string * V)) k v v' :
  dict_set (dict_set d k v) k v' = dict_set d k v'.
Proof.
  induction d as [|[k0 v0] d IH]; simpl.
  - now rewrite String.eqb_refl.
  - destruct (String.eqb_spec k k0) as [->|Hne]; simpl.
    + now rewrite String.eqb_refl.
    + destruct (String.eqb_spec k k0); [congruence|now rewrite IH].
Qed.

Lemma dict_update_absorb (V : Type) (c h : list (string * V)) :
  (forall k v, In (k, v) h -> dict_get c k = Some v) ->
  dict_update c h = c.
Proof.
  unfold dict_update. induction h as [|[k v] h IH]; intros H; [reflexivity|].
  cbn [fold_left fst snd].
  rewrite (dict_set_same_value _ c k v) by (apply H; now left).
  apply IH. intros k' v' Hin. apply H. now right.
Qed.

(** Harvesting twice is harvesting once: a second call of
    [add_corr2_dict] on the dictionary the first one returned returns it
    unchanged. *)
Theorem add_corr2_dict_idempotent (d d' : pydict) :
  add_corr2_dict d = Ok d' -> add_corr2_dict d' = Ok d'.
Proof.
  intros H.
  assert (Hh : harvest d' = harvest d).
  { apply harvest_ext. intros k Hk.
    apply (add_corr2_dict_other_keys d d' k H).
    intros ->. discriminate Hk. }
  revert H. unfold add_corr2_dict. rewrite Hh.
  generalize (harvest_nodup d). generalize (harvest d). intros h Hnd.
  destruct (dict_get d "corr2_options") as [old|] eqn:Hold.
  - destruct old as [| | | | | |existing];
      try (intros H; exfalso; inversion H; fail).
    intros H. injection H as <-.
    rewrite dict_get_set_same, dict_set_twice.
    rewrite (dict_update_absorb _ (dict_update existing h) h); [reflexivity|].
    intros k v Hin. rewrite (dict_get_update _ _ _ _ Hnd).
    now rewrite (dict_get_nodup _ h k v Hnd Hin).
  - intros H. injection H as <-.
    rewrite dict_get_set_same, dict_set_twice.
    rewrite (dict_update_absorb _ h h); [reflexivity|].
    intros k v Hin. now apply dict_get_nodup.
Qed.

Lemma add_corr2_dict_idempotent_witness :
  add_corr2_dict [("nbins", PInt 20); ("verbosity", PInt 1);
                  ("corr2_options", PDict [("nbins", PInt 20)])]
  = Ok [("nbins", PInt 20); ("verbosity", PInt 1);
        ("corr2_options", PDict [("nbins", PInt 20)])].
Proof.
  apply (add_corr2_dict_idempotent
           [("nbins", PInt 20); ("verbosity", PInt 1);
            ("corr2_options", PDict [("nbins", PInt 10)])]).
  vm_compute. reflexivity.
Defined.

(** ** The serializer, further *)

Lemma write_entries_app (self : list pyobj -> pydict -> string -> option (string * res unit))
      (f : pyobj) (kwargs : pydict) (ks1 ks2 : list string) (text : string) :
  write_entries self f kwargs (ks1 ++ ks2)%list text
  = match write_entries self f kwargs ks1 text with
    | Some (text', Ok _) => write_entries self f kwargs ks2 text'
    | other => other
    end.
Proof.
  revert text. induction ks1 as [|key ks1 IH]; intros text; [reflexivity|].
  cbn [app write_entries].
  destruct (dict_get kwargs key) as [value|]; [|reflexivity].
  destruct (dict_in key options).
  - destruct (write_line f key value text) as [text' [[]|e]]; [apply IH|reflexivity].
  - destruct value; try reflexivity.
    destruct (self _ _ _) as [[text' [[]|e]]|]; [apply IH|reflexivity|reflexivity].
Qed.

Lemma write_entries_ok_inv (file_exists : string -> bool) (fuel : nat)
      (kwargs : pydict) (ks : list string) (text text' : string) :
  write_entries (write_corr2_param_file file_exists fuel) (FileObj true)
                kwargs ks text = Some (text', Ok tt) ->
  Forall (fun key => dict_in key options = true /\
                     exists v, dict_get kwargs key = Some (PStr v)) ks.
Proof.
  revert text. induction ks as [|key ks IH]; intros text; [constructor|].
  cbn [write_entries].
  destruct (dict_get kwargs key) as [value|] eqn:Hget; [|discriminate].
  destruct (dict_in key options) eqn:Hopt.
  - destruct value; cbn [write_line]; try discriminate.
    intros H. constructor; [eauto|exact (IH _ H)].
  - destruct value; try discriminate.
    rewrite write_corr2_param_file_two_positional. discriminate.
Qed.

(** On a writable stream the serializer returns normally exactly for the
    configurations whose keys are all registry keys and whose values are
    all strings; it has then added one line [key = value] per entry, in
    order, to the text of the stream. *)
Theorem write_corr2_param_file_returns (file_exists : string -> bool)
        (fuel : nat) (kwargs : pydict) (text : string) :
  NoDup (keys kwargs) ->
  (Forall (fun kv => dict_in (fst kv) options = true /\
                     exists v, snd kv = PStr v) kwargs ->
   write_corr2_param_file file_exists (S fuel) [FileObj true] kwargs text
   = Some ((text ++ param_text (string_pairs kwargs))%string, Ok tt)) /\
  (forall text',
     write_corr2_param_file file_exists (S fuel) [FileObj true] kwargs text
     = Some (text', Ok tt) ->
     Forall (fun kv => dict_in (fst kv) options = true /\
                       exists v, snd kv = PStr v) kwargs).
Proof.
  intros Hnd. split.
  - now apply write_corr2_param_file_strings.
  - intros text' H. cbn [write_corr2_param_file bind_param_file_name] in H.
    destruct (dict_in "param_file_name" kwargs); [discriminate H|].
    unfold write_body in H. apply write_entries_ok_inv in H.
    rewrite Forall_forall in *. intros [key value] Hin.
    assert (Hk : In key (keys kwargs)).
    { change key with (fst (key, value)). now apply in_map. }
    destruct (H key Hk) as (Hopt & v & Hv).
    rewrite (dict_get_nodup _ kwargs key value Hnd Hin) in Hv.
    injection Hv as ->. cbn [fst snd]. eauto.
Qed.

Lemma write_corr2_param_file_returns_witness :
  write_corr2_param_file (fun _ => false) 1 [FileObj true]
    [("ra_units", PStr "degrees"); ("nbins", PStr "20")] "# corr2"
  = Some (("# corr2" ++ "ra_units = degrees" ++ newline ++ "nbins = 20" ++ newline)%string,
          Ok tt).
Proof.
  apply (write_corr2_param_file_returns (fun _ => false) 0
           [("ra_units", PStr "degrees"); ("nbins", PStr "20")] "# corr2").
  - repeat constructor; simpl; intuition discriminate.
  - repeat constructor; simpl; eauto.
Defined.

(** Given a file name, the serializer writes nothing: it returns normally
    only when the file exists and there is nothing to write, and raises in
    every other case. *)
Theorem write_corr2_param_file_file_name (file_exists : string -> bool)
        (fuel : nat) (name : string) (kwargs : pydict) (text : string) :
  exists outcome,
    write_corr2_param_file file_exists (S fuel) [Val (PStr name)] kwargs text
    = Some (text, outcome) /\
    (outcome = Ok tt <-> kwargs = [] /\ file_exists name = true).
Proof.
  cbn [write_corr2_param_file bind_param_file_name].
  destruct (dict_in "param_file_name" kwargs) eqn:Hparam.
  { eexists. split; [reflexivity|].
    split; [discriminate|]. intros [-> _]. discriminate Hparam. }
  unfold write_body, open.
  destruct (file_exists name).
  - destruct kwargs as [|[key value] rest].
    + exists (Ok tt). repeat split.
    + cbn [keys map fst write_entries dict_get]. rewrite String.eqb_refl.
      destruct (dict_in key options).
      * destruct value; cbn [write_line];
          (eexists; split; [reflexivity|]; split;
           [discriminate|intros [H _]; discriminate H]).
      * destruct value;
          try rewrite write_corr2_param_file_two_positional;
          (eexists; split; [reflexivity|]; split;
           [discriminate|intros [H _]; discriminate H]).
  - exists (Raise IOError). split; [reflexivity|].
    split; [discriminate|intros [_ H]; discriminate H].
Qed.

(** When the serializer stops at an entry with an unknown key and a value
    that is no mapping, the entries before it are already on the stream.
    No keyword argument is named ['param_file_name']: such a call is
    turned down before anything is written. *)
Theorem write_corr2_param_file_partial (file_exists : string -> bool)
        (fuel : nat) (pre post : pydict) (key : string) (value : pyval)
        (text : string) :
  NoDup (keys (pre ++ (key, value) :: post)%list) ->
  dict_in "param_file_name" (pre ++ (key, value) :: post)%list = false ->
  Forall (fun kv => dict_in (fst kv) options = true /\
                    exists v, snd kv = PStr v) pre ->
  dict_in key options = false ->
  (forall d, value <> PDict d) ->
  write_corr2_param_file file_exists (S fuel) [FileObj true]
    (pre ++ (key, value) :: post)%list text
  = Some ((text ++ param_text (string_pairs pre))%string,
          Raise (UnserializableOption key)).
Proof.
  intros Hnd Hparam Hpre Hunknown Hnodict.
  cbn [write_corr2_param_file bind_param_file_name]. rewrite Hparam.
  unfold write_body.
  unfold keys at 1. rewrite map_app. fold (keys pre).
  rewrite write_entries_app.
  rewrite (write_entries_strings _ _ pre).
  - cbn [map fst]. apply write_entries_unknown_key with (value := value); auto.
    apply dict_get_nodup; [exact Hnd|]. apply in_or_app. right. now left.
  - intros k v Hin. rewrite Forall_forall in Hpre.
    destruct (Hpre _ Hin) as [Hopt Hstr]. cbn [fst snd] in *.
    split; [|auto].
    apply dict_get_nodup; [exact Hnd|]. apply in_or_app. now left.
Qed.

Lemma write_corr2_param_file_partial_witness :
  write_corr2_param_file (fun _ => false) 1 [FileObj true]
    [("ra_units", PStr "degrees"); ("bins", PInt 20); ("sep_units", PStr "arcmin")] ""
  = Some (("ra_units = degrees" ++ newline)%string,
          Raise (UnserializableOption "bins")).
Proof.
  apply (write_corr2_param_file_partial (fun _ => false) 0
           [("ra_units", PStr "degrees")] [("sep_units", PStr "arcmin")]
           "bins" (PInt 20) "").
  - repeat constructor; simpl; intuition discriminate.
  - reflexivity.
  - repeat constructor; simpl; eauto.
  - reflexivity.
  - discriminate.
Defined.

(** ** The result parser, further *)

(** How the parser ends for a kind of the catalog, by the array that
    [numpy.loadtxt] gives: an empty array and an array of one zero are
    reported as an empty file; an array of one other element ends in
    IndexError (no dimension) or in the NameError of the loop; any larger
    array ends in the ValueError of the truth test.  The error for a column
    count without a mapping is among none of these. *)
Theorem read_corr2_output_file_outcome (loadtxt : string -> res ndarray)
        (file_name file_type : string) (output : ndarray) :
  dict_in file_type column_maps = true ->
  loadtxt file_name = Ok output ->
  read_corr2_output_file loadtxt file_name file_type
  = Raise
      match size output with
      | 0 => EmptyOutput
      | 1 =>
          match data output with
          | x :: _ =>
              if nonzero x
              then match rev (shape output) with
                   | [] => IndexError
                   | _ :: _ => NameError "col_list"
                   end
              else EmptyOutput
          | [] => EmptyOutput
          end
      | _ => ValueError AmbiguousTruthValue
      end.
Proof.
  intros Hkind Hload. unfold read_corr2_output_file, dict_in in *.
  destruct (dict_get column_maps file_type) as [maps|] eqn:Hmaps;
    [|discriminate].
  apply column_maps_nonempty in Hmaps.
  destruct maps as [|m maps]; [congruence|].
  rewrite Hload. cbn [bind]. unfold array_truth, last_dimension.
  destruct (size output) as [|[|n]]; [reflexivity| |reflexivity].
  destruct (data output) as [|x rest]; [reflexivity|].
  destruct (nonzero x); [|reflexivity].
  cbn [bind negb]. now destruct (rev (shape output)).
Qed.

Lemma read_corr2_output_file_outcome_witness :
  read_corr2_output_file
    (fun _ => Ok {| shape := [1; 1]; data := [S754_zero false] |}) "ng.out" "ng"
  = Raise EmptyOutput.
Proof.
  apply (read_corr2_output_file_outcome
           (fun _ => Ok {| shape := [1; 1]; data := [S754_zero false] |})
           "ng.out" "ng" {| shape := [1; 1]; data := [S754_zero false] |});
    reflexivity.
Defined.

(** ** The catalog, further *)

Lemma distinct_nodup (l : list string) : distinct l = true -> NoDup l.
Proof.
  induction l as [|x l IH]; simpl; [constructor|].
  intros H. apply andb_prop in H as [Hx Hl].
  constructor; [|auto].
  intros Hin. apply negb_true_iff in Hx.
  assert (He : existsb (String.eqb x) l = true).
  { apply existsb_exists. exists x. split; [exact Hin|apply String.eqb_refl]. }
  congruence.
Qed.

(** No candidate list of the catalog names a column twice. *)
Theorem column_maps_names_distinct (kind : string) (maps : list (list string))
        (cols : list string) :
  dict_get column_maps kind = Some maps -> In cols maps -> NoDup cols.
Proof.
  intros Hget Hin. apply distinct_nodup.
  assert (Hall : forallb (fun kind_maps => forallb distinct (snd kind_maps))
                         column_maps = true) by (vm_compute; reflexivity).
  rewrite forallb_forall in Hall.
  specialize (Hall _ (dict_get_In _ _ _ _ Hget)). cbn [snd] in Hall.
  rewrite forallb_forall in Hall. now apply Hall.
Qed.

Lemma column_maps_names_distinct_witness :
  NoDup ["r"; "nmap_mean"; "nmx_mean"; "sig_nmap"].
Proof.
  apply (column_maps_names_distinct "nm" [["r"; "nmap_mean"; "nmx_mean"; "sig_nmap"]]).
  - reflexivity.
  - now left.
Defined.

(** ** The start of [plot] *)

Lemma pick_radius_none (candidates fields : list string) :
  forallb (fun t_r => negb (field_in t_r fields)) candidates = true ->
  pick_radius candidates fields = NoRadiusParameter.
Proof.
  induction candidates as [|t_r rest IH]; simpl; [reflexivity|].
  intros H. apply andb_prop in H as [Ht Hrest].
  apply negb_true_iff in Ht. rewrite Ht. auto.
Qed.

(** The catalog and [plot] do not agree on the name of the radius: for
    data whose fields are named by any candidate list of the catalog,
    [plot] (with matplotlib at hand) raises the error for a missing radius
    parameter. *)
Theorem plot_radius_column_maps (kind : string) (maps : list (list string))
        (cols : list string) :
  dict_get column_maps kind = Some maps -> In cols maps ->
  plot_radius true cols = NoRadiusParameter.
Proof.
  intros Hget Hin. unfold plot_radius. cbn [negb].
  apply pick_radius_none.
  assert (Hall : forallb
            (fun kind_maps =>
               forallb (fun fields =>
                          forallb (fun t_r => negb (field_in t_r fields))
                                  ["<R>"; "R_nominal"; "R"])
                       (snd kind_maps))
            column_maps = true) by (vm_compute; reflexivity).
  rewrite forallb_forall in Hall.
  specialize (Hall _ (dict_get_In _ _ _ _ Hget)). cbn [snd] in Hall.
  rewrite forallb_forall in Hall. now apply Hall.
Qed.

Lemma plot_radius_column_maps_witness :
  plot_radius true ["r"; "nmap_mean"; "nmx_mean"; "sig_nmap"] = NoRadiusParameter.
Proof.
  apply (plot_radius_column_maps "nm" [["r"; "nmap_mean"; "nmx_mean"; "sig_nmap"]]).
  - reflexivity.
  - now left.
Defined.

(** With fields named as [plot] expects, the first of ['<R>'],
    ['R_nominal'], ['R'] that is present is the radius. *)
Example plot_radius_found :
  plot_radius true ["R_nominal"; "<R>"; "<gamT>"; "<gamX>"; "sigma"] = Radius "<R>".
Proof. reflexivity. Qed.

(** ** The orchestrator, further *)


(** The merged configuration: a key takes its value from the file
    arguments made for the data sets, else from the keyword arguments of
    the call, else from [stile_args['corr2_kwargs']]. *)
Theorem merge_kwargs_precedence
        (AddCorr2Dict : pydict -> res pydict)
        (MakeCorr2FileKwargs : pyval -> pyval -> pyval -> pyval -> res pydict)
        (stile_args kwargs base file_kwargs : pydict)
        (data data2 random random2 : pyval) :
  dict_get stile_args "corr2_kwargs" = Some (PDict base) ->
  MakeCorr2FileKwargs data data2 random random2 = Ok file_kwargs ->
  NoDup (keys kwargs) -> NoDup (keys file_kwargs) ->
  exists merged,
    merge_kwargs AddCorr2Dict MakeCorr2FileKwargs stile_args data data2
                 random random2 kwargs = Ok merged /\
    forall k,
      dict_get merged k
      = match dict_get file_kwargs k with
        | Some v => Some v
        | None => match dict_get kwargs k with
                  | Some v => Some v
                  | None => dict_get base k
                  end
        end.
Proof.
  intros Hbase Hfile Hnd1 Hnd2. unfold merge_kwargs, dict_in.
  rewrite Hbase. cbn [negb bind]. rewrite Hbase, Hfile. cbn [bind].
  eexists. split; [reflexivity|]. intros k.
  now rewrite (dict_get_update _ _ _ _ Hnd2), (dict_get_update _ _ _ _ Hnd1).
Qed.

Lemma merge_kwargs_precedence_witness :
  exists merged,
    merge_kwargs AddCorr2Dict_unbound
      (fun _ _ _ _ => Ok [("file_name", PStr "lens.dat")])
      [("corr2_kwargs", PDict [("nbins", PInt 10); ("file_name", PStr "old.dat")])]
      PNone PNone PNone PNone [("nbins", PInt 20)] = Ok merged /\
    dict_get merged "nbins" = Some (PInt 20) /\
    dict_get merged "file_name" = Some (PStr "lens.dat").
Proof.
  destruct (merge_kwargs_precedence AddCorr2Dict_unbound
              (fun _ _ _ _ => Ok [("file_name", PStr "lens.dat")])
              [("corr2_kwargs", PDict [("nbins", PInt 10); ("file_name", PStr "old.dat")])]
              [("nbins", PInt 20)]
              [("nbins", PInt 10); ("file_name", PStr "old.dat")]
              [("file_name", PStr "lens.dat")] PNone PNone PNone PNone
              eq_refl eq_refl)
    as (merged & Hm & Hget).
  - repeat constructor; simpl; tauto.
  - repeat constructor; simpl; tauto.
  - exists merged. split; [exact Hm|]. split; rewrite Hget; reflexivity.
Defined.


Section GetCFFurther.
Variable AddCorr2Dict : pydict -> res pydict.
Variable MakeCorr2FileKwargs : pyval -> pyval -> pyval -> pyval -> res pydict.
Variable WriteCorr2ConfigurationFile : string -> pydict -> res unit.
Variable ReadCorr2ResultsFile : string -> res pyval.
Variable exit_status : list string -> Z.
Variable temp_name : option string -> nat -> string.
Variables (stile_args kwargs : pydict) (kind : string).
Variables (data data2 random random2 : pyval) (save_config : bool).

(** A call starts at most one process, the command [corr2] with the
    configuration file as its only argument, and starts none when it ends
    before the configuration is written. *)
Theorem getCF_spawns_once (w : world) :
  let config_file :=
    temp_name (if save_config then Some "." else None) (fresh w) in
  let result :=
    getCF AddCorr2Dict MakeCorr2FileKwargs WriteCorr2ConfigurationFile
          ReadCorr2ResultsFile exit_status temp_name
          stile_args kind data data2 random random2 save_config kwargs w in
  spawned (snd result) = spawned w \/
  (spawned (snd result) = (spawned w ++ [["corr2"; config_file]])%list /\
   exists corr2_kwargs,
     WriteCorr2ConfigurationFile config_file corr2_kwargs = Ok tt).
Proof.
  intros config_file result. subst result.
  destruct (merge_kwargs AddCorr2Dict MakeCorr2FileKwargs stile_args data
                         data2 random random2 kwargs) as [c|e] eqn:Hm.
  - destruct (check_files c) as [[]|e] eqn:Hc.
    + rewrite (getCF_after_checks AddCorr2Dict MakeCorr2FileKwargs
                 WriteCorr2ConfigurationFile ReadCorr2ResultsFile exit_status
                 temp_name stile_args kwargs kind data data2 random random2
                 save_config c w Hm Hc).
      cbv zeta. fold config_file.
      destruct (WriteCorr2ConfigurationFile config_file _) as [[]|] eqn:Hw;
        [|now left].
      right. destruct (Z.eqb _ 0).
      * destruct (ReadCorr2ResultsFile _); (split; [reflexivity|eauto]).
      * split; [reflexivity|eauto].
    + left. now rewrite (getCF_check_fails AddCorr2Dict MakeCorr2FileKwargs
                WriteCorr2ConfigurationFile ReadCorr2ResultsFile exit_status
                temp_name stile_args kwargs kind data data2 random random2
                save_config c e w Hm Hc).
  - left. now rewrite (getCF_merge_fails AddCorr2Dict MakeCorr2FileKwargs
              WriteCorr2ConfigurationFile ReadCorr2ResultsFile exit_status
              temp_name stile_args kwargs kind data data2 random random2
              save_config e w Hm).
Qed.

End GetCFFurther.


(** The writer is only ever handed a configuration that binds
    ['<kind>_file_name'] to the path of the second temporary file of the
    call, whatever the caller gave under that key, and that agrees with the
    merged configuration on every other key: two writers that agree on
    such configurations give the same call. *)
Theorem getCF_output_file_option
        (AddCorr2Dict : pydict -> res pydict)
        (MakeCorr2FileKwargs : pyval -> pyval -> pyval -> pyval -> res pydict)
        (writer writer' : string -> pydict -> res unit)
        (ReadCorr2ResultsFile : string -> res pyval)
        (exit_status : list string -> Z) (temp_name : option string -> nat -> string)
        (stile_args kwargs : pydict) (kind : string)
        (data data2 random random2 : pyval) (save_config : bool) (w : world) :
  (forall merged config_file corr2_kwargs,
     merge_kwargs AddCorr2Dict MakeCorr2FileKwargs stile_args data data2
                  random random2 kwargs = Ok merged ->
     dict_get corr2_kwargs (kind ++ "_file_name")
     = Some (PStr (temp_name None (S (fresh w)))) ->
     (forall k, k <> (kind ++ "_file_name")%string ->
                dict_get corr2_kwargs k = dict_get merged k) ->
     writer config_file corr2_kwargs = writer' config_file corr2_kwargs) ->
  getCF AddCorr2Dict MakeCorr2FileKwargs writer ReadCorr2ResultsFile
        exit_status temp_name stile_args kind data data2 random random2
        save_config kwargs w
  = getCF AddCorr2Dict MakeCorr2FileKwargs writer' ReadCorr2ResultsFile
          exit_status temp_name stile_args kind data data2 random random2
          save_config kwargs w.
Proof.
  intros Hagree.
  destruct (merge_kwargs AddCorr2Dict MakeCorr2FileKwargs stile_args data
                         data2 random random2 kwargs) as [c|e] eqn:Hm.
  - destruct (check_files c) as [[]|e] eqn:Hc.
    + rewrite !(getCF_after_checks AddCorr2Dict MakeCorr2FileKwargs _
                  ReadCorr2ResultsFile exit_status temp_name stile_args kwargs
                  kind data data2 random random2 save_config c w Hm Hc).
      cbv zeta. rewrite (Hagree c).
      * reflexivity.
      * reflexivity.
      * apply dict_get_set_same.
      * intros k Hk. now apply dict_get_set_other.
    + now rewrite !(getCF_check_fails AddCorr2Dict MakeCorr2FileKwargs _
                      ReadCorr2ResultsFile exit_status temp_name stile_args
                      kwargs kind data data2 random random2 save_config c e w
                      Hm Hc).
  - now rewrite !(getCF_merge_fails AddCorr2Dict MakeCorr2FileKwargs _
                    ReadCorr2ResultsFile exit_status temp_name stile_args
                    kwargs kind data data2 random random2 save_config e w Hm).
Qed.

Lemma getCF_output_file_option_witness :
  let stile_args :=
    [("corr2_kwargs", PDict [("file_name", PStr "lens.dat");
                             ("ng_file_name", PStr "mine.out")])] in
  let picky (config_file : string) (corr2_kwargs : pydict) : res unit :=
    match dict_get corr2_kwargs "ng_file_name" with
    | Some (PStr "tmp") => Ok tt
    | _ => Raise IOError
    end in
  getCF AddCorr2Dict_unbound no_file_kwargs picky (fun _ => Ok PNone)
        (fun _ => 0%Z) (fun _ _ => "tmp") stile_args "ng"
        PNone PNone PNone PNone false [] empty_world
  = getCF AddCorr2Dict_unbound no_file_kwargs (fun _ _ => Ok tt)
          (fun _ => Ok PNone) (fun _ => 0%Z) (fun _ _ => "tmp") stile_args "ng"
          PNone PNone PNone PNone false [] empty_world.
Proof.
  intros stile_args picky.
  apply (getCF_output_file_option AddCorr2Dict_unbound no_file_kwargs picky
           (fun _ _ => Ok tt) (fun _ => Ok PNone) (fun _ => 0%Z)
           (fun _ _ => "tmp") stile_args [] "ng" PNone PNone PNone PNone false
           empty_world).
  intros merged config_file corr2_kwargs _ Hout _.
  unfold picky. simpl in Hout. now rewrite Hout.
Defined.

(** ** The validator and the orchestrator *)

Lemma check_key_disallowed_file (d : pydict) (key : string)
      (types : list pytype) (val : option (list string)) :
  dict_get options key = Some (Descriptor types val (Some "disallowed_file")) ->
  check_key d key = Raise (ValueError (ForbiddenFile key)).
Proof. intros H. unfold check_key. now rewrite H. Qed.

Lemma check_keys_raises_in (d : pydict) (ks : list string) (k : string) :
  In k ks -> raises (check_key d k) = true -> raises (check_keys d ks) = true.
Proof.
  induction ks as [|a ks IH]; simpl; [tauto|].
  intros [->|Hin] Hk.
  - destruct (check_key d k); [discriminate|reflexivity].
  - destruct (check_key d a); simpl; auto.
Qed.

Lemma output_file_options (kind : string) :
  dict_in kind column_maps = true ->
  exists types val,
    dict_get options (kind ++ "_file_name")
    = Some (Descriptor types val (Some "disallowed_file")).
Proof.
  intros H. apply dict_get_keys in H. vm_compute in H.
  repeat (destruct H as [<-|H]; [do 2 eexists; vm_compute; reflexivity|]).
  contradiction.
Qed.

(** For every kind of the catalog, the validator rejects whatever
    configuration the orchestrator writes out: the option
    ['<kind>_file_name'] that the orchestrator sets has the status
    ['disallowed_file'], which the validator turns down with either value
    of [check_status]. *)
Theorem check_options_rejects_output_file (kind output_file : string)
        (corr2_kwargs : pydict) (check_status : bool) :
  dict_in kind column_maps = true ->
  raises (check_options
            (dict_set corr2_kwargs (kind ++ "_file_name") (PStr output_file))
            check_status) = true.
Proof.
  intros Hkind.
  destruct (output_file_options kind Hkind) as (types & val & Hopt).
  unfold check_options.
  assert (H : raises (check_keys
                        (dict_set corr2_kwargs (kind ++ "_file_name") (PStr output_file))
                        (keys (dict_set corr2_kwargs (kind ++ "_file_name")
                                        (PStr output_file)))) = true).
  { apply check_keys_raises_in with (k := (kind ++ "_file_name")%string).
    - apply keys_dict_set_in.
    - now rewrite (check_key_disallowed_file _ _ types val Hopt). }
  destruct (check_keys _ _); [discriminate|reflexivity].
Qed.

Lemma check_options_rejects_output_file_witness :
  raises (check_options
            (dict_set [("sep_units", PStr "arcmin")] ("g2" ++ "_file_name")
                      (PStr "/tmp/tmpq1"))
            false) = true.
Proof.
  apply (check_options_rejects_output_file "g2" "/tmp/tmpq1"
           [("sep_units", PStr "arcmin")] false).
  reflexivity.
Defined.

(** ** The checks of [StatSysTest.__call__] *)

Lemma np_min_bad (first : spec_float) (rest : list spec_float) :
  is_nan (np_min first rest) || is_inf (np_min first rest)
  = is_nan first || existsb is_nan rest
    || (is_neg_inf first || existsb is_neg_inf rest)
    || (is_pos_inf first && forallb is_pos_inf rest).
Proof.
  unfold np_min. revert first.
  induction rest as [|x rest IH]; intros first.
  - destruct first as [[|]|[|]| |[|] m e]; reflexivity.
  - cbn [fold_left existsb forallb]. rewrite IH. clear IH.
    destruct (existsb is_nan rest), (existsb is_neg_inf rest),
      (forallb is_pos_inf rest);
      destruct first as [[|]|[|]| |[|] m e], x as [[|]|[|]| |[|] m' e'];
      match goal with
      | |- context [SFleb ?a ?b] => destruct (SFleb a b) eqn:Hlt
      end;
      cbn [is_nan is_inf is_neg_inf is_pos_inf orb andb];
      reflexivity || (exfalso; cbv in Hlt; discriminate Hlt).
Qed.

(** Without [ignore_bad], a simple array of at least one value is turned
    down for its bad values exactly when it holds a NaN, holds minus
    infinity, or holds plus infinity and nothing else; plus infinity next
    to any finite value goes through to the statistics. *)
Theorem stat_call_bad_values (self_percentiles : pyiter)
        (levels values : list spec_float) :
  values <> [] ->
  stat_call self_percentiles None (SimpleArray values) (Some (Iterable levels))
            None false
  = if existsb is_nan values || existsb is_neg_inf values
       || forallb is_pos_inf values
    then NanOrInfDetected
    else Computes values levels false.
Proof.
  intros Hne. destruct values as [|first rest]; [congruence|].
  unfold stat_call, stat_checks. cbv zeta. cbn [andb existsb forallb].
  rewrite np_min_bad.
  now destruct (is_nan first), (existsb is_nan rest), (is_neg_inf first),
    (existsb is_neg_inf rest), (is_pos_inf first), (forallb is_pos_inf rest).
Qed.

Lemma stat_call_bad_values_witness :
  stat_call (Iterable []) None
            (SimpleArray [S754_finite false 1 0; S754_infinity false])
            (Some (Iterable [])) None false
  = Computes [S754_finite false 1 0; S754_infinity false] [] false.
Proof.
  apply (stat_call_bad_values (Iterable []) []
           [S754_finite false 1 0; S754_infinity false]).
  discriminate.
Defined.

Lemma np_min_finite (first : spec_float) (rest : list spec_float) :
  is_nan first || is_inf first = false ->
  forallb (fun x => negb (is_nan x) && negb (is_inf x)) rest = true ->
  is_nan (np_min first rest) || is_inf (np_min first rest) = false.
Proof.
  unfold np_min. revert first.
  induction rest as [|x rest IH]; intros first Hfirst Hrest; [exact Hfirst|].
  cbn [fold_left forallb] in *. apply andb_prop in Hrest as [Hx Hrest].
  apply IH; [|exact Hrest].
  destruct (SFleb first x || is_nan first); [exact Hfirst|].
  now destruct x as [[|]|[|]| |[|] m e].
Qed.

(** With [ignore_bad], a simple array is never turned down for NaN or
    infinite values: the call fails for want of good entries when every
    value is NaN or infinite, and otherwise goes on with the values that
    are neither, in their order. *)
Theorem stat_call_ignore_bad (self_percentiles : pyiter)
        (levels values : list spec_float) :
  stat_call self_percentiles None (SimpleArray values) (Some (Iterable levels))
            None true
  = let good := filter (fun x => negb (is_nan x) && negb (is_inf x)) values in
    if is_nil good then NoGoodEntries else Computes good levels false.
Proof.
  unfold stat_call, stat_checks. cbv zeta. cbn [andb].
  pose proof (filter_In (fun x => negb (is_nan x) && negb (is_inf x))) as Hin.
  specialize (Hin) with (l := values).
  destruct (filter _ values) as [|first rest] eqn:Hf; [reflexivity|].
  cbn [List.length Nat.eqb is_nil].
  rewrite np_min_finite; [reflexivity| |].
  - destruct (Hin first) as [H _]. specialize (H (or_introl eq_refl)).
    destruct H as [_ H]. now destruct first as [[|]|[|]| |[|] m e].
  - apply forallb_forall. intros x Hx.
    destruct (Hin x) as [H _]. apply H. now right.
Qed.

(** A catalog needs a field, from the call or from the object, and the
    field has to be one of the catalog. *)
Example stat_call_catalog :
  stat_call (Iterable []) None (CatalogArray [("g1", [S754_zero false])])
            None None false = CatalogWithoutField /\
  stat_call (Iterable []) (Some "g2") (CatalogArray [("g1", [S754_zero false])])
            None None false = FieldNotInCatalog "g2" /\
  stat_call (Iterable []) (Some "g2") (CatalogArray [("g1", [S754_zero false])])
            None (Some "g1") false = Computes [S754_zero false] [] false.
Proof. repeat split. Qed.

(** ** Arrays for the tests *)

Lemma count_distinct_one (l : list nat) :
  count_distinct l = 1 <-> l <> [] /\ Forall (fun n => n = hd 0 l) l.
Proof.
  unfold count_distinct. split.
  - intros H.
    destruct (nodup Nat.eq_dec l) as [|a [|b t]] eqn:Hn; try discriminate.
    assert (Hall : forall x, In x l -> x = a).
    { intros x Hx. apply (nodup_In Nat.eq_dec) in Hx. rewrite Hn in Hx.
      destruct Hx as [<-|[]]. reflexivity. }
    destruct l as [|x l]; [discriminate|].
    split; [discriminate|]. apply Forall_forall. intros y Hy. simpl.
    rewrite (Hall y Hy). symmetry. apply Hall. now left.
  - intros [Hne Hall]. destruct l as [|x l]; [congruence|]. simpl in Hall.
    rewrite Forall_forall in Hall.
    assert (Hle : List.length (nodup Nat.eq_dec (x :: l)) <= List.length [x]).
    { apply NoDup_incl_length; [apply NoDup_nodup|].
      intros y Hy. apply nodup_In in Hy. rewrite (Hall y Hy). now left. }
    assert (Hin : In x (nodup Nat.eq_dec (x :: l))).
    { apply nodup_In. now left. }
    destruct (nodup Nat.eq_dec (x :: l)) as [|a t]; [contradiction|].
    simpl in *. lia.
Qed.

Lemma fill_columns (V : Type) (d : list (string * np_column V))
      (data : list (string * list V)) :
  fold_left (fun data kc => dict_set data (fst kc) (col_values (snd kc))) d data
  = dict_update data (map (fun kc => (fst kc, col_values (snd kc))) d).
Proof.
  unfold dict_update. revert data.
  induction d as [|kc d IH]; intros data; [reflexivity|].
  cbn [fold_left map fst snd]. apply IH.
Qed.

(** [makeArray] returns only for a dictionary of at least one column whose
    columns all have one length; the array then has that length and holds
    each column under its key.  For such a dictionary it does return; an
    empty dictionary and columns of different lengths are both turned
    down. *)
Theorem makeArray_returns (V : Type) (zero : V)
        (catalog_dict : list (string * np_column V)) :
  NoDup (keys catalog_dict) ->
  (forall data,
     makeArray zero catalog_dict = Some data ->
     catalog_dict <> [] /\
     forall key column,
       In (key, column) catalog_dict ->
       List.length (col_values column) = str_len data /\
       dict_get (str_data data) key = Some (col_values column)) /\
  (catalog_dict <> [] ->
   (exists n, Forall (fun kc => List.length (col_values (snd kc)) = n)
                     catalog_dict) ->
   exists data, makeArray zero catalog_dict = Some data).
Proof.
  intros Hnd. unfold makeArray. split.
  - intros data.
    destruct (Nat.eqb_spec
                (count_distinct
                   (map (fun kc => List.length (col_values (snd kc))) catalog_dict))
                1) as [Hone|]; [|discriminate].
    cbn [negb]. intros H. injection H as <-.
    apply count_distinct_one in Hone as [Hne Hall].
    split; [intros ->; now apply Hne|].
    intros key column Hin. cbn [str_len str_data]. split.
    + rewrite Forall_forall in Hall. apply Hall.
      change (List.length (col_values column))
        with ((fun kc : string * np_column V =>
                 List.length (col_values (snd kc))) (key, column)).
      now apply in_map.
    + rewrite fill_columns, dict_get_update.
      * rewrite (dict_get_nodup _ _ key (col_values column)); [reflexivity| |].
        -- unfold keys in *. now rewrite map_map.
        -- change (key, col_values column)
             with ((fun kc : string * np_column V =>
                      (fst kc, col_values (snd kc))) (key, column)).
           now apply in_map.
      * unfold keys in *. now rewrite map_map.
  - intros Hne [n Hall].
    assert (Hone : count_distinct
                     (map (fun kc => List.length (col_values (snd kc))) catalog_dict)
                   = 1).
    { apply count_distinct_one. split.
      - destruct catalog_dict; [congruence|discriminate].
      - rewrite Forall_forall in *. intros x Hx.
        apply in_map_iff in Hx as (kc & <- & Hkc). rewrite (Hall kc Hkc).
        destruct catalog_dict as [|kc0 rest]; [congruence|].
        simpl. symmetry. apply Hall. now left. }
    rewrite Hone. cbn [Nat.eqb negb]. eauto.
Qed.

Lemma makeArray_returns_witness :
  exists data,
    makeArray 0%Z
      [("ra", {| col_dtype := "f8"; col_values := [1; 2]%Z |});
       ("dec", {| col_dtype := "f8"; col_values := [3; 4]%Z |})] = Some data.
Proof.
  apply (makeArray_returns Z 0%Z
           [("ra", {| col_dtype := "f8"; col_values := [1; 2]%Z |});
            ("dec", {| col_dtype := "f8"; col_values := [3; 4]%Z |})]).
  - repeat constructor; simpl; intuition discriminate.
  - discriminate.
  - exists 2. repeat constructor.
Defined.

Example makeArray_empty (V : Type) (zero : V) : makeArray zero [] = None.
Proof. reflexivity. Qed.

Lemma logical_and_map (catalog : list source) (p q : source -> bool) :
  logical_and (map p catalog) (map q catalog)
  = map (fun src => p src && q src) catalog.
Proof.
  unfold logical_and. induction catalog as [|src catalog IH]; [reflexivity|].
  simpl. now rewrite IH.
Qed.

Lemma fold_logical_and (catalog : list source) (flags : list string)
      (p : source -> bool) :
  fold_left logical_and
            (map (fun flag => map (fun src => negb (src flag)) catalog) flags)
            (map p catalog)
  = map (fun src => p src && forallb (fun flag => negb (src flag)) flags) catalog.
Proof.
  revert p. induction flags as [|flag flags IH]; intros p.
  - simpl. apply map_ext. intros src. now rewrite andb_true_r.
  - cbn [map fold_left forallb]. rewrite logical_and_map, IH.
    apply map_ext. intros src. now rewrite andb_assoc.
Qed.

Lemma select_map (catalog : list source) (p : source -> bool) :
  select catalog (map p catalog) = filter p catalog.
Proof.
  unfold select. induction catalog as [|src catalog IH]; [reflexivity|].
  simpl. destruct (p src); simpl; now rewrite IH.
Qed.

(** With at least one flag configured, [removeFlaggedObjects] keeps, in
    their order, exactly the sources for which every configured flag is
    false. *)
Theorem removeFlaggedObjects_keeps (flags : list string) (catalog : list source) :
  flags <> [] ->
  removeFlaggedObjects flags catalog
  = Some (filter (fun src => forallb (fun flag => negb (src flag)) flags) catalog).
Proof.
  intros Hne. destruct flags as [|flag flags]; [congruence|].
  unfold removeFlaggedObjects. cbn [map].
  now rewrite fold_logical_and, select_map.
Qed.

Lemma removeFlaggedObjects_keeps_witness :
  option_map (@List.length source)
    (removeFlaggedObjects ["flags.negative"; "deblend.failed"]
       [fun _ => false; String.eqb "deblend.failed"; fun _ => false])
  = Some 2.
Proof.
  rewrite (removeFlaggedObjects_keeps ["flags.negative"; "deblend.failed"]
             [fun _ => false; String.eqb "deblend.failed"; fun _ => false]).
  - reflexivity.
  - discriminate.
Defined.

Example removeFlaggedObjects_no_flags (catalog : list source) :
  removeFlaggedObjects [] catalog = None.
Proof. reflexivity. Qed.

(** The default configuration of the tasks: the validator turns it down at
    ['min_sep'], the serializer writes it out on a stream. *)
Example default_corr2_kwargs_checked :
  check_options default_corr2_kwargs false
  = Raise (ValueError (ShouldHaveBeenCaptured "min_sep")) /\
  write_corr2_param_file (fun _ => false) 1 [FileObj true] default_corr2_kwargs ""
  = Some (param_text (string_pairs default_corr2_kwargs), Ok tt).
Proof. split; vm_compute; reflexivity. Qed.

(** The parameter of the serializer and a keyword argument of its name: one
    of each is turned down at the call, with nothing written; the keyword
    argument alone names the destination. *)
Example write_corr2_param_file_keyword :
  write_corr2_param_file (fun _ => true) 1 [FileObj true]
    [("ra_units", PStr "degrees"); ("param_file_name", PStr "corr2.params")] ""
  = Some ("", Raise (TypeError (MultipleValuesForArgument "param_file_name"))) /\
  write_corr2_param_file (fun _ => true) 1 []
    [("param_file_name", PStr "corr2.params")] ""
  = Some ("", Ok tt) /\
  write_corr2_param_file (fun _ => true) 1 [] [("ra_units", PStr "degrees")] ""
  = Some ("", Raise (TypeError TakesExactlyOneArgument)).
Proof. repeat split. Qed.
